(** * translate_file_reference: the Python binding glue of tk-multi-importcut

    A shallow embedding of
    [python/tk_multi_importcut/widgets/translate_file_reference/translate_file_reference_module.c]
    and of its header.  The C file is glue around CPython 2 API calls and one
    resolver, [translate_url], that the header only declares.  The embedding
    keeps every such call as an operation of a signature; the two C functions
    are programs over that signature, run against an arbitrary environment
    that answers the operations.  A small reference interpreter for the CPython
    calls gives runs on concrete heaps. *)

From stdpp Require Import base option list strings gmap.
From Stdlib Require Import ZArith NArith Lia.

Local Open Scope Z_scope.
Local Open Scope string_scope.
Local Open Scope list_scope.

(** ** C data *)

(** [PyObject *]: [None] is the null pointer. *)
Abbreviation PyObject_p := (option positive).
Abbreviation NULL := (@None positive).

(** [const char *]: the characters before the terminating NUL. *)
Abbreviation c_string := string.

(** Objects with static storage whose address the module hands out. *)
Inductive c_object : Set :=
  | Py_translate_file_reference_api.

(** [void *]. *)
Abbreviation void_p := (option c_object).

(** Addresses of the functions of the translation unit. *)
Inductive c_function : Set :=
  | fn_translate_file_reference_translate_url.

Global Instance c_object_eq_dec : EqDecision c_object.
Proof. solve_decision. Defined.
Global Instance c_function_eq_dec : EqDecision c_function.
Proof. solve_decision. Defined.

Definition METH_VARARGS : Z := 1.

(** [PyMethodDef]: [{name, meth, flags, doc}]. *)
Record PyMethodDef : Set := {
  ml_name : option c_string;
  ml_meth : option c_function;
  ml_flags : Z;
  ml_doc : option c_string
}.

Global Instance PyMethodDef_eq_dec : EqDecision PyMethodDef.
Proof. solve_decision. Defined.

(** The static variables of the translation unit. *)
Record globals : Set := { module : PyObject_p }.

(** Static storage is zero-initialised. *)
Definition globals_init : globals := {| module := NULL |}.

(** ** The calls the module makes *)

(** One constructor per external function the C file calls, with the
    arguments of the call.  [PyArg_ParseTuple] is variadic; its only call site
    passes one output pointer, [&url].  [Py_INCREF] is a macro that writes
    through its argument; it is kept as a call, so that the environment says
    what happens on a null pointer.  [PyCObject_Import] is the call of the
    header's import macro. *)
Inductive call : Set :=
  | PyArg_ParseTuple (args : PyObject_p) (format : c_string)
  | translate_url (module : PyObject_p) (url : c_string)
  | Py_InitModule3 (name : c_string) (methods : list PyMethodDef) (doc : c_string)
  | PyCObject_FromVoidPtrAndDesc (cobj : void_p) (desc : c_string)
      (destr : option c_function)
  | PyModule_AddObject (module : PyObject_p) (name : c_string) (value : PyObject_p)
  | PyString_FromString (v : c_string)
  | Py_INCREF (op : PyObject_p)
  | PyCObject_Import (module_name : c_string) (name : c_string).

Global Instance call_eq_dec : EqDecision call.
Proof. solve_decision. Defined.

(** What a call hands back.  For [PyArg_ParseTuple] it is the [int] returned
    together with the content of [url] after the call. *)
Definition answer (c : call) : Set :=
  match c with
  | PyArg_ParseTuple _ _ => (Z * c_string)%type
  | translate_url _ _ => PyObject_p
  | Py_InitModule3 _ _ _ => PyObject_p
  | PyCObject_FromVoidPtrAndDesc _ _ _ => PyObject_p
  | PyModule_AddObject _ _ _ => Z
  | PyString_FromString _ => PyObject_p
  | Py_INCREF _ => unit
  | PyCObject_Import _ _ => void_p
  end.

(** A C function body: straight-line code that returns or makes a call and
    goes on with its answer. *)
Inductive prog (R : Type) : Type :=
  | Ret (r : R)
  | Do (c : call) (k : answer c → prog R).
Arguments Ret {R} r.
Arguments Do {R} c k.

Fixpoint bind {A B} (p : prog A) (f : A → prog B) : prog B :=
  match p with
  | Ret a => f a
  | Do c k => Do c (λ x, bind (k x) f)
  end.

Global Instance prog_ret : MRet prog := λ _ r, Ret r.
Global Instance prog_bind : MBind prog := λ _ _ f p, bind p f.

(** A single call, handing its answer on. *)
Definition perform (c : call) : prog (answer c) := Do c Ret.

(** ** translate_file_reference_module.c *)

(** The C escape [\n]. *)
Definition LF : c_string := String (Ascii.ascii_of_nat 10) "".

Definition docstring : c_string :=
  "Translate urls to file paths" +:+ LF +:+
  LF +:+
  "translate_file_reference.translate_url(url)" +:+ LF +:+
  "  Translate the given URL to a filesystem path.".

(** [translate_file_reference_translate_url(self, args)] *)
Definition translate_file_reference_translate_url
    (g : globals) (self args : PyObject_p) : prog PyObject_p :=
  '(results, url) ← perform (PyArg_ParseTuple args "s");
  if Z.eqb results 0 then mret NULL
  else
    translation ← perform (translate_url (module g) url);
    mret translation.

Definition translate_file_reference_methods : list PyMethodDef :=
  [ {| ml_name := Some "translate_url";
       ml_meth := Some fn_translate_file_reference_translate_url;
       ml_flags := METH_VARARGS;
       ml_doc := Some "Translate a url" |};
    {| ml_name := None; ml_meth := None; ml_flags := 0; ml_doc := None |} ].

(** [inittranslate_file_reference()]; it returns [void], so the program
    returns the static variables as the function leaves them. *)
Definition inittranslate_file_reference (g : globals) : prog globals :=
  m ← perform (Py_InitModule3 "translate_file_reference"
                 translate_file_reference_methods "Translate file paths");
  let g := {| module := m |} in
  if decide (module g = NULL) then mret g
  else
    c_api_object ← perform (PyCObject_FromVoidPtrAndDesc
        (Some Py_translate_file_reference_api)
        "translate_file_reference.translate_file_reference_CAPI" None);
    (if decide (c_api_object ≠ NULL)
     then perform (PyModule_AddObject (module g)
                     "translate_file_reference_CAPI" c_api_object);; mret tt
     else mret tt);;
    docs ← perform (PyString_FromString docstring);
    perform (Py_INCREF docs);;
    perform (PyModule_AddObject (module g) "__doc__" docs);;
    mret g.

(** The code behind a function address. *)
Definition code_at (f : c_function)
    : globals → PyObject_p → PyObject_p → prog PyObject_p :=
  match f with
  | fn_translate_file_reference_translate_url =>
      translate_file_reference_translate_url
  end.

(** ** translate_file_reference_module.h *)

(** [Py_TRANSLATE_FILE_REFERENCE_IMPORT], the right-hand side of the macro's
    assignment. *)
Definition Py_TRANSLATE_FILE_REFERENCE_IMPORT : prog void_p :=
  perform (PyCObject_Import "translate_file_reference"
             "translate_file_reference_CAPI").

(** ** Running a program against an environment *)

(** A call together with what the environment answered; [None] for a call
    that was made and never returned. *)
Record event : Set := Event { ev_call : call; ev_ret : option (answer ev_call) }.

(** The [translate_url] calls of a trace, as (module, url) pairs. *)
Definition resolver_calls (tr : list event) : list (PyObject_p * c_string) :=
  omap (λ e, match ev_call e with
             | translate_url m url => Some (m, url)
             | _ => None
             end) tr.

Section Run.
(** The environment: a state [W] and, for each call, either the answer and
    the next state, or [None] when the call never returns (the process
    faults or exits inside it). *)
Context {W : Type} (api : ∀ c : call, W → option (answer c * W)).

(** [run p w] is the trace of [p] from [w] and, when [p] returns, its result
    and the final state. *)
Fixpoint run {R} (p : prog R) (w : W) : list event * option (R * W) :=
  match p with
  | Ret r => ([], Some (r, w))
  | Do c k =>
      match api c w with
      | None => ([Event c None], None)
      | Some (a, w') =>
          let '(tr, out) := run (k a) w' in (Event c (Some a) :: tr, out)
      end
  end.
End Run.

(** ** A reference interpreter for the CPython 2 calls

    CPython is not part of the repository.  The interpreter below follows the
    documented behaviour of the calls in CPython 2.7 on the few kinds of
    object the module meets.  Objects are never deallocated, and a reference
    count only records the [Py_INCREF]s made on the object. *)

Inductive PyExc : Set :=
  | PyExc_TypeError | PyExc_MemoryError | PyExc_SystemError
  | PyExc_ImportError | PyExc_AttributeError | PyExc_UnicodeEncodeError.

(** The kinds of object the module meets. *)
Inductive PyValue : Type :=
  | PyNone_Type
  | PyInt_Type (ob_ival : Z)
  | PyString_Type (ob_sval : string)
  | PyTuple_Type (ob_item : list positive)
  | PyCObject_Type (cobject : void_p) (desc : c_string)
  | PyCFunction_Type (m_ml : PyMethodDef) (m_self : PyObject_p)
  | PyModule_Type (md_name : string) (md_dict : gmap string positive)
  | PyUnicode_Type (code_points : list N).

Record PyObject : Type := { ob_refcnt : Z; ob_value : PyValue }.

(** The interpreter: the object heap, [sys.modules], the error indicator, and
    a script for the allocator ([false]: the next object allocation fails;
    once the script is used up every allocation succeeds). *)
Record world : Type := {
  heap : gmap positive PyObject;
  sys_modules : gmap string positive;
  err : option PyExc;
  alloc_script : list bool
}.

Definition set_err (e : PyExc) (w : world) : world :=
  {| heap := heap w; sys_modules := sys_modules w;
     err := Some e; alloc_script := alloc_script w |}.

Definition set_heap (h : gmap positive PyObject) (w : world) : world :=
  {| heap := h; sys_modules := sys_modules w;
     err := err w; alloc_script := alloc_script w |}.

(** Allocation of a new object with one reference, or [NULL] and
    [MemoryError]. *)
Definition new_object (v : PyValue) (w : world) : PyObject_p * world :=
  match alloc_script w with
  | false :: rest =>
      (NULL, {| heap := heap w; sys_modules := sys_modules w;
                err := Some PyExc_MemoryError; alloc_script := rest |})
  | script =>
      let a := fresh (dom (heap w)) in
      (Some a, {| heap := <[a := {| ob_refcnt := 1; ob_value := v |}]> (heap w);
                  sys_modules := sys_modules w;
                  err := err w; alloc_script := tail script |})
  end.

(** A C string read from a Python string stops at the first NUL; format
    [s] rejects strings in which that loses characters. *)
Fixpoint has_nul (s : string) : bool :=
  match s with
  | EmptyString => false
  | String c rest => bool_decide (c = Ascii.zero) || has_nul rest
  end.

(** What a [const char *] into the characters [s] reads. *)
Fixpoint c_str (s : string) : c_string :=
  match s with
  | EmptyString => EmptyString
  | String c rest =>
      if bool_decide (c = Ascii.zero) then EmptyString else String c (c_str rest)
  end.

(** The default encoding of a unicode object, ASCII unless the site changes
    it; the model fixes ASCII. *)
Fixpoint default_encode (u : list N) : option string :=
  match u with
  | [] => Some EmptyString
  | c :: rest =>
      if (c <? 128)%N then String (Ascii.ascii_of_N c) <$> default_encode rest
      else None
  end.

(** A failed conversion reports [TypeError], unless an error is pending
    already. *)
Definition seterror (w : world) : world :=
  from_option (λ _, w) (set_err PyExc_TypeError w) (err w).

(** Format [s] on one argument: a string object gives its characters; a
    unicode object is encoded with the default encoding into a new string
    object (the copy CPython keeps inside the unicode object; that it is
    reused by later calls is not modelled), and fails with
    [UnicodeEncodeError] when it cannot be encoded; anything else is a
    conversion failure.  The pointer is stored before the characters are
    checked for NUL bytes. *)
Definition convert_s (v : PyValue) (w : world) : (Z * c_string) * world :=
  match v with
  | PyString_Type s =>
      if has_nul s then ((0, c_str s), seterror w) else ((1, s), w)
  | PyUnicode_Type u =>
      match default_encode u with
      | None => ((0, ""), set_err PyExc_UnicodeEncodeError w)
      | Some s =>
          let '(copy, w1) := new_object (PyString_Type s) w in
          match copy with
          | None => ((0, ""), w1)
          | Some _ =>
              if has_nul s then ((0, c_str s), seterror w1) else ((1, s), w1)
          end
      end
  | _ => ((0, ""), seterror w)
  end.

(** [PyArg_ParseTuple(args, "s", &url)]: [args] must be a tuple of exactly one
    argument, which format [s] converts.  Where [url] is not written the
    answer carries the empty string.  Other formats are outside the model. *)
Definition ref_PyArg_ParseTuple (args : PyObject_p) (format : c_string)
    (w : world) : option ((Z * c_string) * world) :=
  if decide (format = "s") then
    a ← args;
    o ← heap w !! a;
    match ob_value o with
    | PyTuple_Type [x] =>
        ox ← heap w !! x;
        Some (convert_s (ob_value ox) w)
    | PyTuple_Type _ => Some ((0, ""), set_err PyExc_TypeError w)
    | _ => Some ((0, ""), set_err PyExc_SystemError w)
    end
  else None.

(** [Py_INCREF(op)] writes through [op]: a null or dangling pointer faults. *)
Definition ref_Py_INCREF (op : PyObject_p) (w : world) : option (unit * world) :=
  a ← op;
  o ← heap w !! a;
  Some (tt, set_heap (<[a := {| ob_refcnt := ob_refcnt o + 1;
                               ob_value := ob_value o |}]> (heap w)) w).

(** [PyModule_AddObject(m, name, value)]: [-1] unless [m] is a module and
    [value] is not null; otherwise the module's dictionary gets the entry. *)
Definition ref_PyModule_AddObject (m : PyObject_p) (name : c_string)
    (value : PyObject_p) (w : world) : option (Z * world) :=
  a ← m;
  o ← heap w !! a;
  match ob_value o with
  | PyModule_Type md_name d =>
      match value with
      | None => Some (-1, from_option (λ _, w) (set_err PyExc_TypeError w) (err w))
      | Some v =>
          Some (0, set_heap (<[a := {| ob_refcnt := ob_refcnt o;
                 ob_value := PyModule_Type md_name (<[name := v]> d) |}]> (heap w)) w)
      end
  | _ => Some (-1, set_err PyExc_TypeError w)
  end.

(** The entries of a method table before its null-named sentinel. *)
Fixpoint named_methods (methods : list PyMethodDef) : list (c_string * PyMethodDef) :=
  match methods with
  | [] => []
  | ml :: rest =>
      match ml_name ml with
      | None => []
      | Some n => (n, ml) :: named_methods rest
      end
  end.

(** Store one dictionary entry of module [a]. *)
Definition module_set (a : positive) (name : string) (v : positive) (w : world) : world :=
  match heap w !! a with
  | Some {| ob_refcnt := rc; ob_value := PyModule_Type md_name d |} =>
      set_heap (<[a := {| ob_refcnt := rc;
                          ob_value := PyModule_Type md_name (<[name := v]> d) |}]> (heap w)) w
  | _ => w
  end.

(** [PyImport_AddModule(name)]: the module registered under [name], or a new
    empty one, registered. *)
Definition ref_PyImport_AddModule (name : c_string) (w : world) : PyObject_p * world :=
  match sys_modules w !! name with
  | Some a =>
      match ob_value <$> heap w !! a with
      | Some (PyModule_Type _ _) => (Some a, w)
      | _ => (NULL, set_err PyExc_SystemError w)
      end
  | None =>
      let '(m, w1) := new_object (PyModule_Type name ∅) w in
      match m with
      | None => (NULL, w1)
      | Some a =>
          (Some a, {| heap := heap w1; sys_modules := <[name := a]> (sys_modules w1);
                      err := err w1; alloc_script := alloc_script w1 |})
      end
  end.

(** The loop of [Py_InitModule4] over the named entries: one built-in function
    object per entry, with a null [self]. *)
Fixpoint add_methods (a : positive) (mls : list (c_string * PyMethodDef))
    (w : world) : bool * world :=
  match mls with
  | [] => (true, w)
  | (n, ml) :: rest =>
      let '(f, w1) := new_object (PyCFunction_Type ml NULL) w in
      match f with
      | None => (false, w1)
      | Some fa => add_methods a rest (module_set a n fa w1)
      end
  end.

(** [Py_InitModule3(name, methods, doc)]. *)
Definition ref_Py_InitModule3 (name : c_string) (methods : list PyMethodDef)
    (doc : c_string) (w : world) : option (PyObject_p * world) :=
  let '(m, w1) := ref_PyImport_AddModule name w in
  match m with
  | None => Some (NULL, w1)
  | Some a =>
      let '(ok, w2) := add_methods a (named_methods methods) w1 in
      if ok then
        let '(v, w3) := new_object (PyString_Type doc) w2 in
        match v with
        | None => Some (NULL, w3)
        | Some va => Some (Some a, module_set a "__doc__" va w3)
        end
      else Some (NULL, w2)
  end.

(** [PyCObject_Import(module_name, name)]: the pointer held by the CObject
    found under [name] in the module; only modules already in [sys.modules]
    are found. *)
Definition ref_PyCObject_Import (module_name name : c_string) (w : world)
    : option (void_p * world) :=
  match sys_modules w !! module_name with
  | None => Some (None, set_err PyExc_ImportError w)
  | Some a =>
      match ob_value <$> heap w !! a with
      | Some (PyModule_Type _ d) =>
          match d !! name with
          | None => Some (None, set_err PyExc_AttributeError w)
          | Some c =>
              match ob_value <$> heap w !! c with
              | Some (PyCObject_Type p _) => Some (p, w)
              | _ => Some (None, set_err PyExc_TypeError w)
              end
          end
      | _ => Some (None, set_err PyExc_AttributeError w)
      end
  end.

Section Reference.
(** The resolver is not part of the sources; the interpreter takes it as
    it comes. *)
Variable resolver : PyObject_p → c_string → world → option (PyObject_p * world).

Definition py_api (c : call) : world → option (answer c * world) :=
  match c with
  | PyArg_ParseTuple args format => ref_PyArg_ParseTuple args format
  | translate_url m url => resolver m url
  | Py_InitModule3 name methods doc => ref_Py_InitModule3 name methods doc
  | PyCObject_FromVoidPtrAndDesc cobj desc destr =>
      λ w, Some (new_object (PyCObject_Type cobj desc) w)
  | PyModule_AddObject m name value => ref_PyModule_AddObject m name value
  | PyString_FromString v => λ w, Some (new_object (PyString_Type v) w)
  | Py_INCREF op => ref_Py_INCREF op
  | PyCObject_Import module_name name => ref_PyCObject_Import module_name name
  end.
End Reference.

(** The empty interpreter, with an allocator script. *)
Definition world0 (script : list bool) : world :=
  {| heap := ∅; sys_modules := ∅; err := None; alloc_script := script |}.

(** Two stand-ins for the resolver, to run examples: one that fails, and one
    that returns a new string holding the url. *)
Definition resolver_fails (m : PyObject_p) (url : c_string) (w : world)
    : option (PyObject_p * world) :=
  Some (NULL, set_err PyExc_SystemError w).
Definition resolver_echo (m : PyObject_p) (url : c_string) (w : world)
    : option (PyObject_p * world) :=
  Some (new_object (PyString_Type url) w).

(** What the host sees of a module: the value stored under an attribute. *)
Definition module_attr (w : world) (m : PyObject_p) (name : string) : option PyValue :=
  a ← m;
  o ← heap w !! a;
  match ob_value o with
  | PyModule_Type _ d => v ← d !! name; ob_value <$> heap w !! v
  | _ => None
  end.

(** The values of the argument tuple [args]. *)
Definition tuple_items (w : world) (args : PyObject_p) : option (list PyValue) :=
  a ← args;
  o ← heap w !! a;
  match ob_value o with
  | PyTuple_Type ptrs => mapM (λ x, ob_value <$> heap w !! x) ptrs
  | _ => None
  end.

Definition is_string (v : PyValue) : bool :=
  match v with PyString_Type _ | PyUnicode_Type _ => true | _ => false end.

(** Dispatch through a method table: the code a name is bound to. *)
Definition method_handler (methods : list PyMethodDef) (name : c_string)
    : option (globals → PyObject_p → PyObject_p → prog PyObject_p) :=
  ml ← (list_to_map (named_methods methods) : gmap string PyMethodDef) !! name;
  code_at <$> ml_meth ml.

(** The first two calls of [inittranslate_file_reference], as it writes
    them. *)
Definition init_module_call : call :=
  Py_InitModule3 "translate_file_reference" translate_file_reference_methods
    "Translate file paths".
Definition capi_object_call : call :=
  PyCObject_FromVoidPtrAndDesc (Some Py_translate_file_reference_api)
    "translate_file_reference.translate_file_reference_CAPI" None.

(** The three calls that register the docstring, with their answers. *)
Definition docstring_events (m docs : PyObject_p) (rc : Z) : list event :=
  [ Event (PyString_FromString docstring) (Some docs);
    Event (Py_INCREF docs) (Some tt);
    Event (PyModule_AddObject m "__doc__" docs) (Some rc) ].

(** The handler returned the error value and made no resolver call. *)
Definition fails_without_resolving {W} (r : list event * option (PyObject_p * W)) : Prop :=
  (∃ w', r.2 = Some (NULL, w')) ∧ resolver_calls r.1 = [].

(** The statements of [inittranslate_file_reference] from the docstring
    on. *)
Definition docstring_part (m : PyObject_p) (g : globals) : prog globals :=
  docs ← perform (PyString_FromString docstring);
  perform (Py_INCREF docs);;
  perform (PyModule_AddObject m "__doc__" docs);;
  mret g.

(** The value stored at an address. *)
Definition val (w : world) (a : positive) : option PyValue :=
  ob_value <$> heap w !! a.

Definition is_module (w : world) (a : positive) : Prop :=
  ∃ n d, val w a = Some (PyModule_Type n d).

(** The calls that add the capability object to a module. *)
Definition adds_capi (c : call) : bool :=
  match c with
  | PyModule_AddObject _ name _ =>
      bool_decide (name = "translate_file_reference_CAPI")
  | _ => false
  end.

(** The object a successful [PyCObject_FromVoidPtrAndDesc] event returned. *)
Definition created_cobject (e : event) : PyObject_p :=
  match e with
  | Event (PyCObject_FromVoidPtrAndDesc _ _ _) (Some r) => r
  | _ => NULL
  end.

(** ** Concrete interpreters, to run the module on *)

Definition example_url : c_string := "file:///shots/sh010.mov".

Definition obj (v : PyValue) : PyObject := {| ob_refcnt := 1; ob_value := v |}.

(** An interpreter holding the objects [h], the module among them at
    address 3, with an allocator that never fails. *)
Definition world_of (h : gmap positive PyObject) : world :=
  {| heap := <[3%positive := obj (PyModule_Type "translate_file_reference" ∅)]> h;
     sys_modules := {[ "translate_file_reference" := 3%positive ]};
     err := None; alloc_script := [] |}.

Definition example_globals : globals := {| module := Some 3%positive |}.

(** Argument tuples, each at address 2: [(example_url,)], [()], [(7,)], a
    string with a NUL byte, the unicode object [u"file:/x"], and
    [(example_url, example_url)]. *)
Definition world_one_string : world :=
  world_of {[ 1%positive := obj (PyString_Type example_url);
              2%positive := obj (PyTuple_Type [1%positive]) ]}.
Definition world_no_args : world :=
  world_of {[ 2%positive := obj (PyTuple_Type []) ]}.
Definition world_int_arg : world :=
  world_of {[ 1%positive := obj (PyInt_Type 7);
              2%positive := obj (PyTuple_Type [1%positive]) ]}.
Definition nul_url : string := "file:///shots" +:+ String Ascii.zero "sh010.mov".
Definition world_nul_string : world :=
  world_of {[ 1%positive := obj (PyString_Type nul_url);
              2%positive := obj (PyTuple_Type [1%positive]) ]}.
Definition world_unicode : world :=
  world_of {[ 1%positive := obj (PyUnicode_Type [102; 105; 108; 101; 58; 47; 120]%N);
              2%positive := obj (PyTuple_Type [1%positive]) ]}.
Definition world_two_strings : world :=
  world_of {[ 1%positive := obj (PyString_Type example_url);
              2%positive := obj (PyTuple_Type [1%positive; 1%positive]) ]}.

(** The interpreter after one call, on the reference interpreter. *)
Definition state_after (c : call) (w : world) : world :=
  from_option snd w (py_api resolver_echo c w).

(** A whole initialisation from the empty interpreter, under an allocator
    script. *)
Definition init_run (script : list bool) : list event * option (globals * world) :=
  run (py_api resolver_echo) (inittranslate_file_reference globals_init)
    (world0 script).
Definition world_after_init (script : list bool) : world :=
  from_option snd (world0 script) (init_run script).2.

(** ** The host calling into the module *)

(** The host calling the function stored under [name] in module [m] with the
    argument tuple [args]: a built-in function object of the [METH_VARARGS]
    convention is entered with its own [self] and the tuple.  Other calling
    conventions are outside the model. *)
Definition call_module_function
    (resolver : PyObject_p → c_string → world → option (PyObject_p * world))
    (g : globals) (m : PyObject_p) (name : string) (args : PyObject_p)
    (w : world) : list event * option (PyObject_p * world) :=
  match module_attr w m name with
  | Some (PyCFunction_Type ml self) =>
      match ml_meth ml with
      | Some f =>
          if decide (ml_flags ml = METH_VARARGS)
          then run (py_api resolver) (code_at f g self args) w
          else ([], None)
      | None => ([], None)
      end
  | Some _ => ([], Some (NULL, set_err PyExc_TypeError w))
  | None => ([], Some (NULL, set_err PyExc_AttributeError w))
  end.

(** The characters of a string argument: those of a string object, the
    default encoding of a unicode object. *)
Definition string_chars (v : PyValue) : option c_string :=
  match v with
  | PyString_Type s => Some s
  | PyUnicode_Type u => default_encode u
  | _ => None
  end.

(** The string that format [s] takes out of the values of an argument
    tuple, if there is one to take. *)
Definition accepted_string (items : list PyValue) : option c_string :=
  match items with
  | [v] => s ← string_chars v; if has_nul s then None else Some s
  | _ => None
  end.

(** The next allocation succeeds. *)
Definition can_allocate (w : world) : bool :=
  match alloc_script w with false :: _ => false | _ => true end.

(** The argument tuples that [PyArg_ParseTuple] with format [s] accepts:
    exactly one argument, a string object or an encodable unicode object,
    without NUL bytes; for a unicode object the encoded copy must be
    allocated. *)
Definition format_s_accepts (w : world) (items : list PyValue) : bool :=
  match items with
  | [PyString_Type s] => negb (has_nul s)
  | [PyUnicode_Type u] =>
      match default_encode u with
      | Some s => negb (has_nul s) && can_allocate w
      | None => false
      end
  | _ => false
  end.

(** The condition as the specification words it: the argument is missing or
    is not a string.  This definition follows the specification, not the
    code. *)
Definition argument_missing_or_not_string (items : list PyValue) : Prop :=
  items = [] ∨ ∃ v, items = [v] ∧ is_string v = false.

(** The reference interpreter with a [PyModule_AddObject] that stores nothing
    and returns [-1]. *)
Definition refusing_api (c : call) (w : world) : option (answer c * world) :=
  match c return option (answer c * world) with
  | PyModule_AddObject _ _ _ => Some (-1, w)
  | c => py_api resolver_echo c w
  end.

(** The interpreter after a plain initialisation, with the argument tuple
    [(s,)] allocated; the tuple is at address 7. *)
Definition world_with_call (s : c_string) : world :=
  let '(a, w1) := new_object (PyString_Type s) (world_after_init []) in
  match a with
  | Some x => (new_object (PyTuple_Type [x]) w1).2
  | None => w1
  end.

(** The pointer an event handed back, for the calls that return an
    object. *)
Definition returned_object (e : event) : option PyObject_p :=
  match e with
  | Event (Py_InitModule3 _ _ _) (Some r) => Some r
  | Event (PyCObject_FromVoidPtrAndDesc _ _ _) (Some r) => Some r
  | Event (PyString_FromString _) (Some r) => Some r
  | Event (translate_url _ _) (Some r) => Some r
  | _ => None
  end.

(** ** Properties of running programs *)

Section RunFacts.
Context {W : Type} (api : ∀ c : call, W → option (answer c * W)).

Lemma run_bind {A B} (p : prog A) (f : A → prog B) (w : W) :
  run api (p ≫= f) w =
    match run api p w with
    | (tr, Some (a, w')) => let '(tr', out) := run api (f a) w' in (tr ++ tr', out)
    | (tr, None) => (tr, None)
    end.
Proof.
  revert w. induction p as [r|c k IH]; intros w; cbn.
  - by destruct (run api (f r) w).
  - destruct (api c w) as [[a w']|]; [|done].
    change (bind (k a) f) with (k a ≫= f). rewrite IH.
    destruct (run api (k a) w') as [tr [[b w'']|]]; [|done].
    by destruct (run api (f b) w'').
Qed.

(** When every call returns, every program returns. *)
Lemma run_returns {R} (p : prog R) (w : W) :
  (∀ c w, is_Some (api c w)) → is_Some (run api p w).2.
Proof.
  intros Hret. revert w. induction p as [r|c k IH]; intros w; cbn; [by eexists|].
  destruct (Hret c w) as [[a w'] ->].
  specialize (IH a w'). by destruct (run api (k a) w').
Qed.

(** The calls of the handler, by the parser's verdict. *)
Lemma run_handler_rejected g self args w url w1 :
  api (PyArg_ParseTuple args "s") w = Some ((0, url), w1) →
  run api (translate_file_reference_translate_url g self args) w
  = ([Event (PyArg_ParseTuple args "s") (Some (0, url))], Some (NULL, w1)).
Proof. intros H. cbn. by rewrite H. Qed.

Lemma run_handler_accepted g self args w results url w1 :
  api (PyArg_ParseTuple args "s") w = Some ((results, url), w1) →
  results ≠ 0 →
  run api (translate_file_reference_translate_url g self args) w
  = (Event (PyArg_ParseTuple args "s") (Some (results, url))
      :: (run api (perform (translate_url (module g) url)) w1).1,
     (run api (perform (translate_url (module g) url)) w1).2).
Proof.
  intros H Hres. cbn. rewrite H.
  destruct (Z.eqb_spec results 0) as [|_]; [done|]. cbn.
  by destruct (api (translate_url (module g) url) w1) as [[t w2]|].
Qed.
End RunFacts.

(** ** The handler [translate_file_reference_translate_url] *)

(** In any environment the handler fails without calling the resolver (it
    returns [NULL] and its trace holds no [translate_url] call) exactly when
    [PyArg_ParseTuple(args, "s", &url)] returns 0; and whenever it returns
    nonzero, the resolver is called with the url it stored. *)
Lemma handler_fails_iff_parser_rejects
    {W} (api : ∀ c : call, W → option (answer c * W)) g self args w :
  let r := run api (translate_file_reference_translate_url g self args) w in
  (fails_without_resolving r
     ↔ ∃ url w1, api (PyArg_ParseTuple args "s") w = Some ((0, url), w1))
  ∧ (∀ results url w1,
       api (PyArg_ParseTuple args "s") w = Some ((results, url), w1) →
       results ≠ 0 → resolver_calls r.1 = [(module g, url)]).
Proof.
  cbv zeta. split; [split|].
  - intros [[w' Hout] Hcalls].
    destruct (api (PyArg_ParseTuple args "s") w) as [[[results url] w1]|] eqn:Hparse.
    + destruct (decide (results = 0)) as [->|Hres]; [by eauto|].
      rewrite (run_handler_accepted api g self args w _ _ _ Hparse Hres) in Hcalls.
      cbn in Hcalls.
      by destruct (api (translate_url (module g) url) w1) as [[t w2]|].
    + cbn in Hout. by rewrite Hparse in Hout.
  - intros (url & w1 & Hparse).
    unfold fails_without_resolving.
    rewrite (run_handler_rejected api g self args w _ _ Hparse).
    split; [by eexists|done].
  - intros results url w1 Hparse Hres.
    rewrite (run_handler_accepted api g self args w _ _ _ Hparse Hres). cbn.
    by destruct (api (translate_url (module g) url) w1) as [[t w2]|].
Qed.

(** C2. When argument parsing succeeds, the handler returns exactly what the
    resolver returned, a null result included, and leaves the environment as
    the resolver left it. *)
Theorem translate_url_returns_resolver_result
    {W} (api : ∀ c : call, W → option (answer c * W))
    g self args w results url w1 translation w2 :
  api (PyArg_ParseTuple args "s") w = Some ((results, url), w1) →
  results ≠ 0 →
  api (translate_url (module g) url) w1 = Some (translation, w2) →
  (run api (translate_file_reference_translate_url g self args) w).2
  = Some (translation, w2).
Proof.
  intros Hparse Hres Hcall.
  rewrite (run_handler_accepted api g self args w _ _ _ Hparse Hres). cbn.
  by rewrite Hcall.
Qed.

(** A run of C2: the resolver fails and the handler returns its null. *)
Lemma translate_url_returns_resolver_result_witness :
  (run (py_api resolver_fails)
     (translate_file_reference_translate_url example_globals NULL
        (Some 2%positive)) world_one_string).2
  = Some (NULL, set_err PyExc_SystemError world_one_string).
Proof.
  apply (translate_url_returns_resolver_result (py_api resolver_fails)
           example_globals NULL (Some 2%positive) world_one_string
           1 example_url world_one_string).
  - vm_compute. reflexivity.
  - lia.
  - reflexivity.
Defined.

(** C9. The handler ignores [self]: with the same arguments and two values of
    [self] it is the same program, so it runs the same in every environment;
    and every resolver call it makes passes the module global. *)
Theorem translate_url_independent_of_self
    {W} (api : ∀ c : call, W → option (answer c * W)) g self1 self2 args w :
  translate_file_reference_translate_url g self1 args
  = translate_file_reference_translate_url g self2 args
  ∧ run api (translate_file_reference_translate_url g self1 args) w
    = run api (translate_file_reference_translate_url g self2 args) w
  ∧ ∀ m url,
      (m, url) ∈ resolver_calls
        (run api (translate_file_reference_translate_url g self1 args) w).1 →
      m = module g.
Proof.
  split_and!; [done..|].
  intros m url. cbn.
  destruct (api (PyArg_ParseTuple args "s") w) as [[[results url'] w1]|]; cbn;
    [|by intros Hin%elem_of_nil].
  destruct (Z.eqb_spec results 0) as [|_]; cbn; [by intros Hin%elem_of_nil|].
  destruct (api (translate_url (module g) url') w1) as [[t w2]|]; cbn;
    intros Hin%list_elem_of_singleton; congruence.
Qed.

(** A run of C9: two different [self] pointers. *)
Lemma translate_url_independent_of_self_witness :
  run (py_api resolver_echo)
    (translate_file_reference_translate_url example_globals NULL
       (Some 2%positive)) world_one_string
  = run (py_api resolver_echo)
      (translate_file_reference_translate_url example_globals (Some 1%positive)
         (Some 2%positive)) world_one_string
  ∧ ∀ m url,
      (m, url) ∈ resolver_calls
        (run (py_api resolver_echo)
           (translate_file_reference_translate_url example_globals NULL
              (Some 2%positive)) world_one_string).1 →
      m = Some 3%positive.
Proof.
  exact (proj2 (translate_url_independent_of_self (py_api resolver_echo)
                  example_globals NULL (Some 1%positive) (Some 2%positive)
                  world_one_string)).
Defined.

(** ** The method table *)

(** C4. The method table is one named entry followed by the null sentinel:
    the entry binds the name [translate_url] to the handler
    [translate_file_reference_translate_url], and dispatch through the table
    finds that handler under that name and nothing under any other name. *)
Theorem methods_table_exposes_one_function :
  (∃ entry sentinel,
     translate_file_reference_methods = [entry; sentinel]
     ∧ ml_name entry = Some "translate_url"
     ∧ code_at <$> ml_meth entry = Some translate_file_reference_translate_url
     ∧ ml_flags entry = METH_VARARGS
     ∧ ml_name sentinel = None ∧ ml_meth sentinel = None)
  ∧ length (named_methods translate_file_reference_methods) = 1%nat
  ∧ ∀ name f,
      method_handler translate_file_reference_methods name = Some f
      ↔ name = "translate_url" ∧ f = translate_file_reference_translate_url.
Proof.
  split_and!.
  - do 2 eexists. by split_and!.
  - done.
  - intros name f. unfold method_handler. simpl.
    destruct (decide (name = "translate_url")) as [->|Hne].
    + rewrite lookup_insert_eq. simpl.
      split; [by intros [= <-]|by intros [_ ->]].
    + rewrite lookup_insert_ne by congruence. rewrite lookup_empty. simpl.
      split; [done|by intros [? _]].
Qed.

(** Dispatch of the one exported name. *)
Lemma methods_table_exposes_one_function_witness :
  method_handler translate_file_reference_methods "translate_url"
  = Some translate_file_reference_translate_url.
Proof.
  destruct methods_table_exposes_one_function as (_ & _ & Hdispatch).
  by apply Hdispatch.
Defined.

(** ** Module initialisation, in any environment *)

Section InitFacts.
Context {W : Type} (api : ∀ c : call, W → option (answer c * W)).

Lemma run_docstring_part (m : PyObject_p) g (w : W) :
  run api (docstring_part m g) w
  = match api (PyString_FromString docstring) w with
    | None => ([Event (PyString_FromString docstring) None], None)
    | Some (docs, w1) =>
        match api (Py_INCREF docs) w1 with
        | None => ([Event (PyString_FromString docstring) (Some docs);
                    Event (Py_INCREF docs) None], None)
        | Some (u, w2) =>
            match api (PyModule_AddObject m "__doc__" docs) w2 with
            | None => ([Event (PyString_FromString docstring) (Some docs);
                        Event (Py_INCREF docs) (Some u);
                        Event (PyModule_AddObject m "__doc__" docs) None], None)
            | Some (rc, w3) => (docstring_events m docs rc, Some (g, w3))
            end
        end
    end.
Proof.
  cbn. destruct (api (PyString_FromString docstring) w) as [[docs w1]|]; [|done].
  cbn. destruct (api (Py_INCREF docs) w1) as [[[] w2]|]; [|done].
  cbn. by destruct (api (PyModule_AddObject m "__doc__" docs) w2) as [[rc w3]|].
Qed.

(** [inittranslate_file_reference] when the module was created. *)
Lemma run_init_created g (w : W) m w1 :
  api init_module_call w = Some (Some m, w1) →
  run api (inittranslate_file_reference g) w
  = let tail := run api (docstring_part (Some m) {| module := Some m |}) in
    match api capi_object_call w1 with
    | None => ([Event init_module_call (Some (Some m));
                Event capi_object_call None], None)
    | Some (None, w2) =>
        (Event init_module_call (Some (Some m))
           :: Event capi_object_call (Some NULL) :: (tail w2).1, (tail w2).2)
    | Some (Some c, w2) =>
        let add := PyModule_AddObject (Some m) "translate_file_reference_CAPI" (Some c) in
        match api add w2 with
        | None => ([Event init_module_call (Some (Some m));
                    Event capi_object_call (Some (Some c));
                    Event add None], None)
        | Some (rc, w3) =>
            (Event init_module_call (Some (Some m))
               :: Event capi_object_call (Some (Some c))
               :: Event add (Some rc) :: (tail w3).1, (tail w3).2)
        end
    end.
Proof.
  intros Hinit. unfold inittranslate_file_reference.
  change (Py_InitModule3 _ _ _) with init_module_call.
  change (PyCObject_FromVoidPtrAndDesc _ _ _) with capi_object_call.
  cbn. rewrite Hinit.
  destruct (decide (Some m = NULL)) as [?|_]; [done|]. cbn.
  destruct (api capi_object_call w1) as [[[c|] w2]|]; [| |done].
  - destruct (decide (Some c ≠ NULL)) as [_|Hn]; [|by destruct Hn]. cbn.
    destruct (api (PyModule_AddObject (Some m) "translate_file_reference_CAPI"
                     (Some c)) w2) as [[rc w3]|]; [|done].
    match goal with |- _ = (_, ?M.2) => by destruct M end.
  - destruct (decide (NULL ≠ NULL)) as [?|_]; [done|]. cbn.
    match goal with |- _ = (_, ?M.2) => by destruct M end.
Qed.

Lemma run_init_not_created g (w : W) w1 :
  api init_module_call w = Some (NULL, w1) →
  run api (inittranslate_file_reference g) w
  = ([Event init_module_call (Some NULL)], Some ({| module := NULL |}, w1)).
Proof.
  intros Hinit. unfold inittranslate_file_reference.
  change (Py_InitModule3 _ _ _) with init_module_call.
  cbn. by rewrite Hinit.
Qed.

Lemma run_init_faults g (w : W) :
  api init_module_call w = None →
  run api (inittranslate_file_reference g) w
  = ([Event init_module_call None], None).
Proof.
  intros Hinit. unfold inittranslate_file_reference.
  change (Py_InitModule3 _ _ _) with init_module_call.
  cbn. by rewrite Hinit.
Qed.
End InitFacts.

(** ** The reference interpreter *)

Lemma new_object_spec v w r w' :
  new_object v w = (r, w') →
  sys_modules w' = sys_modules w
  ∧ match r with
    | None => heap w' = heap w
    | Some a =>
        heap w !! a = None
        ∧ heap w' = <[a := {| ob_refcnt := 1; ob_value := v |}]> (heap w)
    end.
Proof.
  unfold new_object. intros H.
  assert (heap w !! fresh (dom (heap w)) = None) as Hfresh
    by apply not_elem_of_dom, is_fresh.
  destruct (alloc_script w) as [|[] rest]; simplify_eq/=; done.
Qed.

Lemma new_object_val v w a w' x :
  new_object v w = (Some a, w') →
  val w' x = if decide (x = a) then Some v else val w x.
Proof.
  intros (_ & _ & Hheap)%new_object_spec. unfold val. rewrite Hheap.
  destruct (decide (x = a)) as [->|Hne].
  - by rewrite lookup_insert_eq.
  - by rewrite lookup_insert_ne.
Qed.

Lemma new_object_keeps v w r w' x u :
  new_object v w = (r, w') → val w x = Some u → val w' x = Some u.
Proof.
  intros Hnew Hx. destruct r as [a|].
  - rewrite (new_object_val _ _ _ _ _ Hnew).
    destruct (decide (x = a)) as [->|]; [|done].
    apply new_object_spec in Hnew as (_ & Hfresh & _).
    unfold val in Hx. by rewrite Hfresh in Hx.
  - apply new_object_spec in Hnew as (_ & Hheap). unfold val. by rewrite Hheap.
Qed.

Lemma Py_INCREF_spec op w u w' :
  ref_Py_INCREF op w = Some (u, w') →
  sys_modules w' = sys_modules w
  ∧ (∃ a, op = Some a ∧ is_Some (heap w !! a))
  ∧ ∀ x, val w' x = val w x.
Proof.
  unfold ref_Py_INCREF. intros H.
  destruct op as [a|]; [|done]. simpl in H.
  destruct (heap w !! a) as [o|] eqn:Ha; [|done]. simplify_eq/=.
  split_and!; [done|by eauto|].
  intros x. unfold val. simpl.
  destruct (decide (x = a)) as [->|].
  - by rewrite lookup_insert_eq, Ha.
  - by rewrite lookup_insert_ne.
Qed.

Lemma PyModule_AddObject_spec a name v w rc w' n d :
  val w a = Some (PyModule_Type n d) →
  ref_PyModule_AddObject (Some a) name (Some v) w = Some (rc, w') →
  rc = 0
  ∧ sys_modules w' = sys_modules w
  ∧ ∀ x, val w' x = if decide (x = a)
                    then Some (PyModule_Type n (<[name := v]> d))
                    else val w x.
Proof.
  unfold val, ref_PyModule_AddObject. intros Ha H. simpl in H.
  destruct (heap w !! a) as [[rcnt ov]|]; [|done]. simplify_eq/=.
  split_and!; [done..|].
  intros x. destruct (decide (x = a)) as [->|].
  - by rewrite lookup_insert_eq.
  - by rewrite lookup_insert_ne.
Qed.

Lemma PyModule_AddObject_returns a name v w n d :
  val w a = Some (PyModule_Type n d) →
  is_Some (ref_PyModule_AddObject (Some a) name v w).
Proof.
  unfold val, ref_PyModule_AddObject. intros Ha. simpl.
  destruct (heap w !! a) as [[rcnt ov]|]; [|done]. simplify_eq/=.
  by destruct v.
Qed.

Lemma module_set_spec a name v w :
  sys_modules (module_set a name v w) = sys_modules w
  ∧ ∀ x, is_module w x → is_module (module_set a name v w) x.
Proof.
  unfold module_set, is_module, val.
  destruct (heap w !! a) as [[rcnt [| | | | | |n d|]]|] eqn:Ha; try done.
  split; [done|]. intros x (n' & d' & Hx). simpl.
  destruct (decide (x = a)) as [->|].
  - rewrite lookup_insert_eq. simpl. eauto.
  - rewrite lookup_insert_ne; eauto.
Qed.

Lemma new_object_keeps_module v w r w' x :
  new_object v w = (r, w') → is_module w x → is_module w' x.
Proof. intros Hnew (n & d & Hx). exists n, d. by eapply new_object_keeps. Qed.

Lemma add_methods_spec a mls w ok w' :
  add_methods a mls w = (ok, w') →
  sys_modules w' = sys_modules w ∧ ∀ x, is_module w x → is_module w' x.
Proof.
  revert w. induction mls as [|[n ml] mls IH]; intros w H; simpl in H.
  - by simplify_eq.
  - destruct (new_object (PyCFunction_Type ml NULL) w) as [[fa|] w1] eqn:Hnew.
    + apply IH in H as [Hsys Hmod].
      destruct (module_set_spec a n fa w1) as [Hsys' Hmod'].
      pose proof (new_object_spec _ _ _ _ Hnew) as [Hsys1 _].
      split; [congruence|].
      intros x Hx. eauto using new_object_keeps_module.
    + simplify_eq. pose proof (new_object_spec _ _ _ _ Hnew) as [Hsys1 _].
      split; [done|]. eauto using new_object_keeps_module.
Qed.

Lemma PyImport_AddModule_spec name w a w' :
  ref_PyImport_AddModule name w = (Some a, w') →
  sys_modules w' !! name = Some a ∧ is_module w' a.
Proof.
  unfold ref_PyImport_AddModule. intros H.
  destruct (sys_modules w !! name) as [b|] eqn:Hname.
  - destruct (ob_value <$> heap w !! b) as [[| | | | | |n d|]|] eqn:Hb;
      simplify_eq/=. split; [done|]. by exists n, d.
  - destruct (new_object (PyModule_Type name ∅) w) as [[b|] w1] eqn:Hnew;
      simplify_eq/=.
    split; [by rewrite lookup_insert_eq|].
    exists name, ∅. unfold val. simpl.
    change (val w1 a = Some (PyModule_Type name ∅)).
    rewrite (new_object_val _ _ _ _ _ Hnew). by rewrite decide_True.
Qed.

Lemma Py_InitModule3_spec name methods doc w a w' :
  ref_Py_InitModule3 name methods doc w = Some (Some a, w') →
  sys_modules w' !! name = Some a ∧ is_module w' a.
Proof.
  unfold ref_Py_InitModule3. intros H.
  destruct (ref_PyImport_AddModule name w) as [[b|] w1] eqn:Hadd; [|done].
  apply PyImport_AddModule_spec in Hadd as [Hname Hmod].
  destruct (add_methods b (named_methods methods) w1) as [[] w2] eqn:Hmeth; [|done].
  apply add_methods_spec in Hmeth as [Hsys2 Hmod2].
  destruct (new_object (PyString_Type doc) w2) as [[va|] w3] eqn:Hnew; [|done].
  simplify_eq.
  destruct (module_set_spec a "__doc__" va w3) as [Hsys4 Hmod4].
  pose proof (new_object_spec _ _ _ _ Hnew) as [Hsys3 _].
  split; [congruence|].
  eauto using new_object_keeps_module.
Qed.

(** Membership of a capability-object event in an explicit trace: go through
    the trace, dropping the events of other calls. *)
Ltac find_capi_event Hin :=
  repeat match type of Hin with
    | _ ∈ [] => by apply elem_of_nil in Hin
    | _ ∈ _ :: _ =>
        let Heq := fresh "Heq" in
        apply elem_of_cons in Hin as [Heq|Hin];
        [first [ by apply (f_equal ev_call) in Heq
               | apply (f_equal created_cobject) in Heq; simpl in Heq ]|]
    end.

(** The interpreter after [inittranslate_file_reference] has returned with the
    module created: what the module's dictionary holds. *)
Lemma init_final_state resolver g w tr g' w' a :
  run (py_api resolver) (inittranslate_file_reference g) w = (tr, Some (g', w')) →
  module g' = Some a →
  sys_modules w' !! "translate_file_reference" = Some a
  ∧ ∃ n d docs,
      val w' a = Some (PyModule_Type n d)
      ∧ d !! "__doc__" = Some docs
      ∧ val w' docs = Some (PyString_Type docstring)
      ∧ ∀ c, Event capi_object_call (Some (Some c)) ∈ tr →
          d !! "translate_file_reference_CAPI" = Some c
          ∧ val w' c = Some (PyCObject_Type (Some Py_translate_file_reference_api)
                 "translate_file_reference.translate_file_reference_CAPI").
Proof.
  intros Hrun Hg'.
  destruct (py_api resolver init_module_call w) as [[[m|] w1]|] eqn:Hinit.
  3: { by rewrite (run_init_faults _ g w Hinit) in Hrun. }
  2: { rewrite (run_init_not_created _ g w w1 Hinit) in Hrun. by simplify_eq. }
  rewrite (run_init_created _ g w m w1 Hinit) in Hrun. cbv zeta in Hrun.
  apply Py_InitModule3_spec in Hinit as [Hname (n & d & Hm)].
  (* the capability object, and the state the docstring part starts from *)
  assert (∃ pre ws d1,
    tr = pre ++ (run (py_api resolver)
                   (docstring_part (Some m) {| module := Some m |}) ws).1
    ∧ Some (g', w') = (run (py_api resolver)
                   (docstring_part (Some m) {| module := Some m |}) ws).2
    ∧ sys_modules ws = sys_modules w1
    ∧ val ws m = Some (PyModule_Type n d1)
    ∧ ∀ c, Event capi_object_call (Some (Some c)) ∈ pre →
        d1 !! "translate_file_reference_CAPI" = Some c
        ∧ val ws c = Some (PyCObject_Type (Some Py_translate_file_reference_api)
               "translate_file_reference.translate_file_reference_CAPI"))
    as (pre & ws & d1 & -> & Hout & Hsys & Hms & Hcapi).
  { cbn [py_api capi_object_call] in Hrun.
    destruct (new_object (PyCObject_Type (Some Py_translate_file_reference_api)
        "translate_file_reference.translate_file_reference_CAPI") w1)
      as [[c|] w2] eqn:Hnew.
    - pose proof (new_object_keeps _ _ _ _ _ _ Hnew Hm) as Hm2.
      pose proof (new_object_spec _ _ _ _ Hnew) as (Hsys2 & Hfresh & _).
      destruct (ref_PyModule_AddObject (Some m) "translate_file_reference_CAPI"
                  (Some c) w2) as [[rc w3]|] eqn:Hadd; [|done].
      destruct (PyModule_AddObject_spec _ _ _ _ _ _ _ _ Hm2 Hadd)
        as (-> & Hsys3 & Hval3).
      simplify_eq.
      eexists [_; _; _], w3, _. split_and!; [done|done|congruence| |].
      + by rewrite Hval3, decide_True.
      + intros c' Hin.
        assert (c' = c) as -> by (find_capi_event Hin; congruence).
        split; [by rewrite lookup_insert_eq|].
        rewrite Hval3, decide_False.
        * rewrite (new_object_val _ _ _ _ _ Hnew). by rewrite decide_True.
        * intros ->. unfold val in Hm. by rewrite Hfresh in Hm.
    - pose proof (new_object_keeps _ _ _ _ _ _ Hnew Hm) as Hm2.
      pose proof (new_object_spec _ _ _ _ Hnew) as (Hsys2 & _).
      simplify_eq.
      eexists [_; _], w2, d. split_and!; [done..|].
      intros c' Hin. find_capi_event Hin. done. }
  clear Hrun. revert Hout. rewrite run_docstring_part. cbn [py_api].
  destruct (new_object (PyString_Type docstring) ws) as [docs w4] eqn:Hnew.
  destruct (ref_Py_INCREF docs w4) as [[[] w5]|] eqn:Hinc; [|done].
  destruct (Py_INCREF_spec _ _ _ _ Hinc) as (Hsys5 & (da & -> & _) & Hval5).
  pose proof (new_object_keeps _ _ _ _ _ _ Hnew Hms) as Hm4.
  pose proof (new_object_spec _ _ _ _ Hnew) as (Hsys4 & Hfresh & _).
  assert (val w5 m = Some (PyModule_Type n d1)) as Hm5 by by rewrite Hval5.
  destruct (ref_PyModule_AddObject (Some m) "__doc__" (Some da) w5)
    as [[rc w6]|] eqn:Hadd; [|done].
  destruct (PyModule_AddObject_spec _ _ _ _ _ _ _ _ Hm5 Hadd)
    as (-> & Hsys6 & Hval6).
  cbn [fst snd]. intros [= -> ->]. cbn [module] in Hg'. simplify_eq.
  assert (da ≠ a) as Hda.
  { intros ->. unfold val in Hms. by rewrite Hfresh in Hms. }
  split; [congruence|].
  exists n, (<["__doc__" := da]> d1), da. split_and!.
  - by rewrite Hval6, decide_True.
  - by rewrite lookup_insert_eq.
  - rewrite Hval6, decide_False, Hval5 by done.
    rewrite (new_object_val _ _ _ _ _ Hnew). by rewrite decide_True.
  - intros c Hin.
    apply elem_of_app in Hin as [Hin|Hin].
    2: { unfold docstring_events in Hin. find_capi_event Hin. }
    destruct (Hcapi c Hin) as [Hd1 Hc].
    split; [by rewrite lookup_insert_ne|].
    rewrite Hval6, decide_False, Hval5.
    + by eapply new_object_keeps.
    + intros ->. congruence.
Qed.

(** What format [s] accepts and rejects. *)
Lemma ParseTuple_on_tuple w args items :
  tuple_items w args = Some items →
  ref_PyArg_ParseTuple args "s" w
  = Some match items with
         | [v] => convert_s v w
         | _ => ((0, ""), set_err PyExc_TypeError w)
         end.
Proof.
  unfold tuple_items, ref_PyArg_ParseTuple. intros Hitems.
  destruct args as [a|]; [|done]. simpl in *.
  destruct (heap w !! a) as [[rc [| | |ptrs| | | |]]|]; try done. simpl in *.
  destruct ptrs as [|x [|y ptrs]]; simpl in *.
  - change (Some [] = Some items) in Hitems. by simplify_eq.
  - destruct (heap w !! x) as [[rcx vx]|]; [|done]. simpl in *.
    change (Some [vx] = Some items) in Hitems. by simplify_eq.
  - destruct (heap w !! x) as [[rcx vx]|]; [|done].
    destruct (heap w !! y) as [[rcy vy]|]; [|done]. simpl in *.
    destruct (mapM _ ptrs) as [vs|]; [|done].
    change (Some (vx :: vy :: vs) = Some items) in Hitems. by simplify_eq.
Qed.

Lemma seterror_pending w : is_Some (err (seterror w)).
Proof. unfold seterror. by destruct (err w) eqn:Herr; simpl; rewrite ?Herr. Qed.

Lemma convert_s_accepts v w :
  format_s_accepts w [v] = true →
  ∃ s w1, accepted_string [v] = Some s ∧ convert_s v w = ((1, s), w1).
Proof.
  unfold format_s_accepts, accepted_string, convert_s.
  destruct v as [| |s| | | | |u]; try done; simpl.
  - destruct (has_nul s); [done|]. by eexists _, _.
  - destruct (default_encode u) as [s|]; [|done]. simpl.
    destruct (has_nul s); [done|]. unfold can_allocate, new_object. simpl.
    destruct (alloc_script w) as [|[] rest]; try done; by eexists _, _.
Qed.

Lemma convert_s_rejects v w :
  format_s_accepts w [v] = false →
  ∃ url w1, convert_s v w = ((0, url), w1) ∧ is_Some (err w1).
Proof.
  unfold format_s_accepts, convert_s. intros Hrej.
  destruct v as [| |s| | | | |u]; simpl in *;
    try (eexists _, _; split; [done|]; by apply seterror_pending).
  - destruct (has_nul s); [|done].
    eexists _, _; split; [done|]; by apply seterror_pending.
  - destruct (default_encode u) as [s|]; [|by eexists _, _].
    unfold can_allocate, new_object in *.
    destruct (alloc_script w) as [|[] rest]; simpl in *;
      try (by eexists _, _);
      (destruct (has_nul s); [|done]);
      eexists _, _; (split; [done|]); by apply seterror_pending.
Qed.

Lemma ParseTuple_accepts w args items :
  tuple_items w args = Some items →
  format_s_accepts w items = true →
  ∃ s w1, accepted_string items = Some s
          ∧ ref_PyArg_ParseTuple args "s" w = Some ((1, s), w1).
Proof.
  intros Hitems Hacc. rewrite (ParseTuple_on_tuple w args items Hitems).
  destruct items as [|v [|v' items]]; [done| |by destruct v].
  destruct (convert_s_accepts v w Hacc) as (s & w1 & Hs & ->). by eexists _, _.
Qed.

Lemma ParseTuple_rejects w args items :
  tuple_items w args = Some items →
  format_s_accepts w items = false →
  ∃ url w1, ref_PyArg_ParseTuple args "s" w = Some ((0, url), w1)
            ∧ is_Some (err w1).
Proof.
  intros Hitems Hrej. rewrite (ParseTuple_on_tuple w args items Hitems).
  destruct items as [|v [|v' items]]; try by eexists _, _.
  destruct (convert_s_rejects v w Hrej) as (url & w1 & -> & Herr).
  by eexists _, _.
Qed.

Lemma ParseTuple_one_string w args s :
  tuple_items w args = Some [PyString_Type s] → has_nul s = false →
  ref_PyArg_ParseTuple args "s" w = Some ((1, s), w).
Proof.
  intros Hitems Hnul. rewrite (ParseTuple_on_tuple w args _ Hitems).
  simpl. by rewrite Hnul.
Qed.

(** The handler on the reference interpreter: an argument tuple that format
    [s] does not accept is rejected before the resolver is reached, with an
    error pending. *)
Lemma handler_rejects_arguments resolver g self args w items :
  tuple_items w args = Some items →
  format_s_accepts w items = false →
  ∃ url w1,
    run (py_api resolver) (translate_file_reference_translate_url g self args) w
    = ([Event (PyArg_ParseTuple args "s") (Some (0, url))], Some (NULL, w1))
    ∧ is_Some (err w1).
Proof.
  intros Hitems Hrej.
  destruct (ParseTuple_rejects w args items Hitems Hrej) as (url & w1 & Hparse & Herr).
  exists url, w1. split; [|done].
  by apply (run_handler_rejected (py_api resolver)).
Qed.

(** ... and an accepted one is handed to the resolver as it is. *)
Lemma handler_forwards_accepted resolver g self args w items :
  tuple_items w args = Some items →
  format_s_accepts w items = true →
  ∃ s w1,
    accepted_string items = Some s
    ∧ ref_PyArg_ParseTuple args "s" w = Some ((1, s), w1)
    ∧ ev_call <$> (run (py_api resolver)
                     (translate_file_reference_translate_url g self args) w).1
      = [PyArg_ParseTuple args "s"; translate_url (module g) s]
    ∧ (run (py_api resolver)
         (translate_file_reference_translate_url g self args) w).2
      = resolver (module g) s w1.
Proof.
  intros Hitems Hacc.
  destruct (ParseTuple_accepts w args items Hitems Hacc) as (s & w1 & Hs & Hparse).
  exists s, w1. split_and!; [done..| |].
  - rewrite (run_handler_accepted (py_api resolver) g self args w 1 s w1) by done.
    cbn. by destruct (resolver (module g) s w1) as [[t w2]|].
  - rewrite (run_handler_accepted (py_api resolver) g self args w 1 s w1) by done.
    cbn. by destruct (resolver (module g) s w1) as [[t w2]|].
Qed.

Lemma handler_forwards_string resolver g self args w s :
  tuple_items w args = Some [PyString_Type s] → has_nul s = false →
  ev_call <$> (run (py_api resolver)
                 (translate_file_reference_translate_url g self args) w).1
  = [PyArg_ParseTuple args "s"; translate_url (module g) s].
Proof.
  intros Hitems Hnul.
  rewrite (run_handler_accepted (py_api resolver) g self args w 1 s w) by
    (by apply ParseTuple_one_string || done).
  cbn. by destruct (resolver (module g) s w) as [[t w2]|].
Qed.

Example handler_on_no_argument :
  run (py_api resolver_echo)
    (translate_file_reference_translate_url example_globals NULL (Some 2%positive))
    world_no_args
  = ([Event (PyArg_ParseTuple (Some 2%positive) "s") (Some (0, ""))],
     Some (NULL, set_err PyExc_TypeError world_no_args)).
Proof. vm_compute. reflexivity. Qed.

Example handler_on_an_integer :
  run (py_api resolver_echo)
    (translate_file_reference_translate_url example_globals NULL (Some 2%positive))
    world_int_arg
  = ([Event (PyArg_ParseTuple (Some 2%positive) "s") (Some (0, ""))],
     Some (NULL, set_err PyExc_TypeError world_int_arg)).
Proof. vm_compute. reflexivity. Qed.

Example handler_on_two_strings :
  run (py_api resolver_echo)
    (translate_file_reference_translate_url example_globals NULL (Some 2%positive))
    world_two_strings
  = ([Event (PyArg_ParseTuple (Some 2%positive) "s") (Some (0, ""))],
     Some (NULL, set_err PyExc_TypeError world_two_strings)).
Proof. vm_compute. reflexivity. Qed.

Example handler_on_a_string_with_nul :
  run (py_api resolver_echo)
    (translate_file_reference_translate_url example_globals NULL (Some 2%positive))
    world_nul_string
  = ([Event (PyArg_ParseTuple (Some 2%positive) "s") (Some (0, "file:///shots"))],
     Some (NULL, set_err PyExc_TypeError world_nul_string)).
Proof. vm_compute. reflexivity. Qed.

Example handler_on_a_unicode_object :
  ev_call <$> (run (py_api resolver_echo)
                 (translate_file_reference_translate_url example_globals NULL
                    (Some 2%positive)) world_unicode).1
  = [PyArg_ParseTuple (Some 2%positive) "s";
     translate_url (Some 3%positive) "file:/x"].
Proof. vm_compute. reflexivity. Qed.

Example handler_on_one_string :
  (run (py_api resolver_echo)
     (translate_file_reference_translate_url example_globals NULL (Some 2%positive))
     world_one_string).2
  = Some (new_object (PyString_Type example_url) world_one_string).
Proof. vm_compute. reflexivity. Qed.

(** After initialisation the host finds the handler under [translate_url]. *)
Example init_binds_translate_url :
  module_attr (world_after_init []) (Some 1%positive) "translate_url"
  = Some (PyCFunction_Type
            {| ml_name := Some "translate_url";
               ml_meth := Some fn_translate_file_reference_translate_url;
               ml_flags := METH_VARARGS;
               ml_doc := Some "Translate a url" |} NULL).
Proof. vm_compute. reflexivity. Qed.

(** Without an allocator script every allocation succeeds. *)
Lemma new_object_unscripted v w :
  alloc_script w = [] →
  ∃ a w', new_object v w = (Some a, w') ∧ alloc_script w' = [].
Proof. unfold new_object. intros ->. by eexists _, _. Qed.

Lemma module_set_script a name v w :
  alloc_script (module_set a name v w) = alloc_script w.
Proof.
  unfold module_set.
  by destruct (heap w !! a) as [[rcnt [| | | | | |n d|]]|].
Qed.

Lemma add_methods_unscripted a mls w :
  alloc_script w = [] →
  ∃ w', add_methods a mls w = (true, w') ∧ alloc_script w' = [].
Proof.
  revert w. induction mls as [|[n ml] mls IH]; intros w Hw; simpl.
  - by eexists.
  - destruct (new_object_unscripted (PyCFunction_Type ml NULL) w Hw)
      as (fa & w1 & -> & Hw1).
    apply IH. by rewrite module_set_script.
Qed.

Lemma Py_InitModule3_unscripted name methods doc w :
  alloc_script w = [] →
  ∃ r w', ref_Py_InitModule3 name methods doc w = Some (r, w')
          ∧ alloc_script w' = [].
Proof.
  intros Hw. unfold ref_Py_InitModule3.
  assert (∃ r w1, ref_PyImport_AddModule name w = (r, w1) ∧ alloc_script w1 = [])
    as (r & w1 & -> & Hw1).
  { unfold ref_PyImport_AddModule.
    destruct (sys_modules w !! name) as [b|].
    - destruct (ob_value <$> heap w !! b) as [[| | | | | |n d|]|]; by eexists _, _.
    - destruct (new_object_unscripted (PyModule_Type name ∅) w Hw)
        as (a & w1 & -> & Hw1). by eexists _, _. }
  destruct r as [a|]; [|by eexists _, _].
  destruct (add_methods_unscripted a (named_methods methods) w1 Hw1)
    as (w2 & -> & Hw2).
  destruct (new_object_unscripted (PyString_Type doc) w2 Hw2)
    as (va & w3 & -> & Hw3).
  eexists _, _. split; [done|]. by rewrite module_set_script.
Qed.

(** On the reference interpreter [inittranslate_file_reference] returns
    whenever the allocator does not fail. *)
Lemma init_returns_unscripted resolver g w :
  alloc_script w = [] →
  is_Some (run (py_api resolver) (inittranslate_file_reference g) w).2.
Proof.
  intros Hw.
  destruct (Py_InitModule3_unscripted "translate_file_reference"
              translate_file_reference_methods "Translate file paths" w Hw)
    as ([m|] & w1 & Hinit & Hw1).
  2: { by rewrite (run_init_not_created (py_api resolver) g w w1 Hinit). }
  rewrite (run_init_created (py_api resolver) g w m w1 Hinit). cbv zeta.
  apply Py_InitModule3_spec in Hinit as [_ (n & d & Hm)].
  cbn [py_api capi_object_call].
  destruct (new_object_unscripted (PyCObject_Type (Some Py_translate_file_reference_api)
      "translate_file_reference.translate_file_reference_CAPI") w1 Hw1)
    as (c & w2 & Hnew & Hw2).
  rewrite Hnew.
  pose proof (new_object_keeps _ _ _ _ _ _ Hnew Hm) as Hm2.
  destruct (ref_PyModule_AddObject (Some m) "translate_file_reference_CAPI"
              (Some c) w2) as [[rc w3]|] eqn:Hadd.
  2: { by destruct (PyModule_AddObject_returns m
         "translate_file_reference_CAPI" (Some c) w2 n d Hm2) as [? ?]; simplify_eq. }
  destruct (PyModule_AddObject_spec _ _ _ _ _ _ _ _ Hm2 Hadd) as (_ & _ & Hval3).
  assert (alloc_script w3 = []) as Hw3.
  { unfold ref_PyModule_AddObject in Hadd. simpl in Hadd.
    destruct (heap w2 !! m) as [[rcnt [| | | | | |n' d'|]]|]; by simplify_eq/=. }
  cbn [fst snd]. rewrite run_docstring_part. cbn [py_api].
  destruct (new_object_unscripted (PyString_Type docstring) w3 Hw3)
    as (da & w4 & Hnew4 & Hw4).
  rewrite Hnew4.
  assert (val w4 m = Some (PyModule_Type n (<["translate_file_reference_CAPI" := c]> d)))
    as Hm4.
  { eapply new_object_keeps; [done|]. by rewrite Hval3, decide_True. }
  assert (val w4 da = Some (PyString_Type docstring)) as Hda.
  { rewrite (new_object_val _ _ _ _ _ Hnew4). by rewrite decide_True. }
  destruct (ref_Py_INCREF (Some da) w4) as [[[] w5]|] eqn:Hinc.
  2: { unfold ref_Py_INCREF, val in *. simpl in Hinc.
       by destruct (heap w4 !! da). }
  destruct (Py_INCREF_spec _ _ _ _ Hinc) as (_ & _ & Hval5).
  destruct (PyModule_AddObject_returns m "__doc__" (Some da) w5 n
              (<["translate_file_reference_CAPI" := c]> d)) as [[rc5 w6] ->];
    [by rewrite Hval5|done].
Qed.

(** When the docstring object cannot be allocated, [Py_INCREF] gets a null
    pointer and initialisation does not return. *)
Example init_without_docstring_object :
  (init_run [true; true; true; true; false]).2 = None
  ∧ ev_call <$> (init_run [true; true; true; true; false]).1
    = [init_module_call; capi_object_call;
       PyModule_AddObject (Some 1%positive) "translate_file_reference_CAPI"
         (Some 4%positive);
       PyString_FromString docstring; Py_INCREF NULL].
Proof. vm_compute. done. Qed.

(** ** Module initialisation: the claims *)

(** What [inittranslate_file_reference] leaves in the module global. *)
Lemma init_module_global {W} (api : ∀ c : call, W → option (answer c * W))
    g w tr g' w' :
  run api (inittranslate_file_reference g) w = (tr, Some (g', w')) →
  ∃ w1, api init_module_call w = Some (module g', w1)
        ∧ g' = {| module := module g' |}
        ∧ (module g' = NULL → tr = [Event init_module_call (Some NULL)]).
Proof.
  intros Hrun.
  destruct (api init_module_call w) as [[[m|] w1]|] eqn:Hinit.
  - rewrite (run_init_created api g w m w1 Hinit) in Hrun. cbv zeta in Hrun.
    assert (g' = {| module := Some m |}) as ->; [|by eexists].
    destruct (api capi_object_call w1) as [[[c|] w2]|]; [| |done].
    + destruct (api (PyModule_AddObject _ _ _) w2) as [[rc w3]|]; [|done].
      rewrite run_docstring_part in Hrun.
      destruct (api (PyString_FromString docstring) w3) as [[docs w4]|]; [|done].
      destruct (api (Py_INCREF docs) w4) as [[u w5]|]; [|done].
      destruct (api (PyModule_AddObject _ _ docs) w5) as [[rc' w6]|]; [|done].
      by simplify_eq/=.
    + rewrite run_docstring_part in Hrun.
      destruct (api (PyString_FromString docstring) w2) as [[docs w4]|]; [|done].
      destruct (api (Py_INCREF docs) w4) as [[u w5]|]; [|done].
      destruct (api (PyModule_AddObject _ _ docs) w5) as [[rc' w6]|]; [|done].
      by simplify_eq/=.
  - rewrite (run_init_not_created api g w w1 Hinit) in Hrun. simplify_eq/=.
    by eexists.
  - by rewrite (run_init_faults api g w Hinit) in Hrun.
Qed.

(** C5. Initialisation exports the capability table.  In any environment,
    when [Py_InitModule3] created the module [translate_file_reference] and the
    capability object was created, the next call adds that object to the
    module under the name [translate_file_reference_CAPI].  On the reference
    interpreter, once initialisation has returned with the capability object
    created, the module holds a CObject for [Py_translate_file_reference_api]
    under that name, and the header's import macro, which asks for the names
    [translate_file_reference] and [translate_file_reference_CAPI], gets the
    address of that struct. *)
Theorem capability_table_exported
    {W} (api : ∀ c : call, W → option (answer c * W)) g w m w1 c w2
    resolver gr wr tr g' w' cr :
  (api (Py_InitModule3 "translate_file_reference"
          translate_file_reference_methods "Translate file paths") w
     = Some (Some m, w1) →
   api (PyCObject_FromVoidPtrAndDesc (Some Py_translate_file_reference_api)
          "translate_file_reference.translate_file_reference_CAPI" None) w1
     = Some (Some c, w2) →
   ∃ rest,
     ev_call <$> (run api (inittranslate_file_reference g) w).1
     = Py_InitModule3 "translate_file_reference"
         translate_file_reference_methods "Translate file paths"
       :: PyCObject_FromVoidPtrAndDesc (Some Py_translate_file_reference_api)
            "translate_file_reference.translate_file_reference_CAPI" None
       :: PyModule_AddObject (Some m) "translate_file_reference_CAPI" (Some c)
       :: rest)
  ∧ (run (py_api resolver) (inittranslate_file_reference gr) wr
       = (tr, Some (g', w')) →
     Event capi_object_call (Some (Some cr)) ∈ tr →
     module_attr w' (module g') "translate_file_reference_CAPI"
       = Some (PyCObject_Type (Some Py_translate_file_reference_api)
                 "translate_file_reference.translate_file_reference_CAPI")
     ∧ run (py_api resolver) Py_TRANSLATE_FILE_REFERENCE_IMPORT w'
       = ([Event (PyCObject_Import "translate_file_reference"
                    "translate_file_reference_CAPI")
             (Some (Some Py_translate_file_reference_api))],
          Some (Some Py_translate_file_reference_api, w'))).
Proof.
  split.
  - intros Hinit Hc.
    rewrite (run_init_created api g w m w1 Hinit). cbv zeta.
    unfold capi_object_call. rewrite Hc.
    destruct (api (PyModule_AddObject _ _ _) w2) as [[rc w3]|]; by eexists.
  - intros Hrun Hin.
    destruct (module g') as [a|] eqn:Hg'.
    2: { destruct (init_module_global _ _ _ _ _ _ Hrun) as (_ & _ & _ & Htr).
         rewrite (Htr Hg') in Hin. find_capi_event Hin. }
    destruct (init_final_state _ _ _ _ _ _ _ Hrun Hg')
      as (Hname & n & d & docs & Ha & _ & _ & Hcapi).
    destruct (Hcapi cr Hin) as [Hd Hcr].
    unfold val in Ha, Hcr.
    split.
    + unfold module_attr. simpl.
      destruct (heap w' !! a) as [[rca va]|]; [|done]. simplify_eq/=.
      by rewrite Hd.
    + unfold Py_TRANSLATE_FILE_REFERENCE_IMPORT, perform. cbn [run py_api].
      unfold ref_PyCObject_Import. rewrite Hname, Ha, Hd, Hcr. done.
Qed.

(** A run of C5 from the empty interpreter. *)
Lemma capability_table_exported_witness :
  (∃ rest,
     ev_call <$> (init_run []).1
     = init_module_call :: capi_object_call
       :: PyModule_AddObject (Some 1%positive) "translate_file_reference_CAPI"
            (Some 4%positive)
       :: rest)
  ∧ module_attr (world_after_init []) (Some 1%positive)
      "translate_file_reference_CAPI"
    = Some (PyCObject_Type (Some Py_translate_file_reference_api)
              "translate_file_reference.translate_file_reference_CAPI")
  ∧ run (py_api resolver_echo) Py_TRANSLATE_FILE_REFERENCE_IMPORT
      (world_after_init [])
    = ([Event (PyCObject_Import "translate_file_reference"
                 "translate_file_reference_CAPI")
          (Some (Some Py_translate_file_reference_api))],
       Some (Some Py_translate_file_reference_api, world_after_init [])).
Proof.
  pose (w1 := state_after init_module_call (world0 [])).
  destruct (capability_table_exported (py_api resolver_echo) globals_init
              (world0 []) 1%positive w1 4%positive
              (state_after capi_object_call w1)
              resolver_echo globals_init (world0 []) (init_run []).1
              {| module := Some 1%positive |} (world_after_init [])
              4%positive) as [Hcalls Hworld].
  split.
  - apply Hcalls; vm_compute; reflexivity.
  - apply Hworld.
    + vm_compute. reflexivity.
    + apply list_elem_of_lookup. exists 1%nat. vm_compute. reflexivity.
Defined.

(** The docstring in the runs of the initialisation that return.  In any
    environment, when the module was created and initialisation returns, its
    last three calls create a string from [docstring], take a reference to it
    and add it to the module as [__doc__]; and when every call returns,
    initialisation returns.  On the reference interpreter the module's
    [__doc__] is then a string object holding [docstring].  The text of
    [docstring] ends with the entry for
    [translate_file_reference.translate_url(url)].  The runs that do not
    return are those of [init_faults_iff_no_docstring_object]. *)
Lemma docstring_registered
    {W} (api : ∀ c : call, W → option (answer c * W)) g w m w1 tr g' w'
    resolver gr wr trr gr' wr' :
  (api init_module_call w = Some (Some m, w1) →
   run api (inittranslate_file_reference g) w = (tr, Some (g', w')) →
   g' = {| module := Some m |}
   ∧ ∃ pre docs rc, tr = pre ++ docstring_events (Some m) docs rc)
  ∧ ((∀ c w, is_Some (api c w)) →
     is_Some (run api (inittranslate_file_reference g) w).2)
  ∧ (run (py_api resolver) (inittranslate_file_reference gr) wr
       = (trr, Some (gr', wr')) →
     module gr' ≠ NULL →
     module_attr wr' (module gr') "__doc__" = Some (PyString_Type docstring))
  ∧ ∃ summary,
      docstring = summary +:+ "translate_file_reference.translate_url(url)"
                  +:+ LF +:+ "  Translate the given URL to a filesystem path.".
Proof.
  split_and!.
  - intros Hinit Hrun.
    rewrite (run_init_created api g w m w1 Hinit) in Hrun. cbv zeta in Hrun.
    destruct (api capi_object_call w1) as [[[c|] w2]|]; [| |done].
    + destruct (api (PyModule_AddObject _ _ _) w2) as [[rc w3]|]; [|done].
      rewrite run_docstring_part in Hrun.
      destruct (api (PyString_FromString docstring) w3) as [[docs w4]|]; [|done].
      destruct (api (Py_INCREF docs) w4) as [[[] w5]|]; [|done].
      destruct (api (PyModule_AddObject _ _ docs) w5) as [[rc' w6]|]; [|done].
      simplify_eq/=. split; [done|]. by eexists [_; _; _], _, _.
    + rewrite run_docstring_part in Hrun.
      destruct (api (PyString_FromString docstring) w2) as [[docs w4]|]; [|done].
      destruct (api (Py_INCREF docs) w4) as [[[] w5]|]; [|done].
      destruct (api (PyModule_AddObject _ _ docs) w5) as [[rc' w6]|]; [|done].
      simplify_eq/=. split; [done|]. by eexists [_; _], _, _.
  - intros Hret. by apply run_returns.
  - intros Hrun Hmod.
    destruct (module gr') as [a|] eqn:Hg'; [|done].
    destruct (init_final_state _ _ _ _ _ _ _ Hrun Hg')
      as (_ & n & d & docs & Ha & Hd & Hdocs & _).
    unfold val in Ha, Hdocs. unfold module_attr. simpl.
    destruct (heap wr' !! a) as [[rca va]|]; [|done]. simplify_eq/=.
    by rewrite Hd.
  - by exists ("Translate urls to file paths" +:+ LF +:+ LF).
Qed.

(** Such a run, from the empty interpreter. *)
Lemma docstring_registered_run :
  (∃ pre docs rc,
     (init_run []).1 = pre ++ docstring_events (Some 1%positive) docs rc)
  ∧ module_attr (world_after_init []) (Some 1%positive) "__doc__"
    = Some (PyString_Type docstring).
Proof.
  destruct (docstring_registered (py_api resolver_echo) globals_init
              (world0 []) 1%positive
              (state_after init_module_call (world0 []))
              (init_run []).1 {| module := Some 1%positive |}
              (world_after_init [])
              resolver_echo globals_init (world0 []) (init_run []).1
              {| module := Some 1%positive |} (world_after_init []))
    as (Hcalls & _ & Hworld & _).
  split.
  - apply Hcalls; vm_compute; reflexivity.
  - apply Hworld; [vm_compute; reflexivity|discriminate].
Defined.

(** C7. When [Py_InitModule3] returns null, initialisation makes no other
    call (no capability object, no docstring, nothing added), returns at
    once, and the module global is null. *)
Theorem init_stops_when_module_creation_fails
    {W} (api : ∀ c : call, W → option (answer c * W)) g w w1 :
  api init_module_call w = Some (NULL, w1) →
  run api (inittranslate_file_reference g) w
  = ([Event init_module_call (Some NULL)], Some ({| module := NULL |}, w1)).
Proof. apply run_init_not_created. Qed.

(** A run of C7: the first allocation fails. *)
Lemma init_stops_when_module_creation_fails_witness :
  run (py_api resolver_echo) (inittranslate_file_reference example_globals)
    (world0 [false])
  = ([Event init_module_call (Some NULL)],
     Some ({| module := NULL |},
           {| heap := ∅; sys_modules := ∅; err := Some PyExc_MemoryError;
              alloc_script := [] |})).
Proof.
  apply (init_stops_when_module_creation_fails (py_api resolver_echo)
           example_globals (world0 [false])).
  vm_compute. reflexivity.
Defined.

(** C8. When the module was created and the capability object is null, the
    [translate_file_reference_CAPI] attribute is never added, and the call
    after the failed creation is already the creation of the docstring; when
    the three docstring calls return, they are all that follows and
    initialisation returns with the module global set. *)
Theorem capi_failure_does_not_abort_init
    {W} (api : ∀ c : call, W → option (answer c * W)) g w m w1 w2 :
  api init_module_call w = Some (Some m, w1) →
  api capi_object_call w1 = Some (NULL, w2) →
  let r := run api (inittranslate_file_reference g) w in
  (∃ rest, ev_call <$> r.1
           = init_module_call :: capi_object_call
               :: PyString_FromString docstring :: rest)
  ∧ (∀ e m' v, e ∈ r.1 →
       ev_call e ≠ PyModule_AddObject m' "translate_file_reference_CAPI" v)
  ∧ (∀ docs w3 w4 rc w5,
       api (PyString_FromString docstring) w2 = Some (docs, w3) →
       api (Py_INCREF docs) w3 = Some (tt, w4) →
       api (PyModule_AddObject (Some m) "__doc__" docs) w4 = Some (rc, w5) →
       r = (Event init_module_call (Some (Some m))
              :: Event capi_object_call (Some NULL)
              :: docstring_events (Some m) docs rc,
            Some ({| module := Some m |}, w5))).
Proof.
  intros Hinit Hc. cbv zeta.
  rewrite (run_init_created api g w m w1 Hinit). cbv zeta. rewrite Hc.
  rewrite run_docstring_part. cbn [fst snd].
  split_and!.
  - destruct (api (PyString_FromString docstring) w2) as [[docs w3]|];
      [|by eexists].
    destruct (api (Py_INCREF docs) w3) as [[u w4]|]; [|by eexists].
    destruct (api (PyModule_AddObject _ _ docs) w4) as [[rc w5]|]; by eexists.
  - intros e m' v Hin Heq. revert Hin.
    match goal with |- e ∈ ?t → _ =>
      assert (Forall (λ e, adds_capi (ev_call e) = false) t) as Hall
    end.
    { destruct (api (PyString_FromString docstring) w2) as [[docs w3]|];
        [|by repeat constructor].
      destruct (api (Py_INCREF docs) w3) as [[u w4]|]; [|by repeat constructor].
      destruct (api (PyModule_AddObject _ _ docs) w4) as [[rc w5]|];
        by repeat constructor. }
    intros Hin. rewrite Forall_forall in Hall. specialize (Hall e Hin).
    rewrite Heq in Hall. by vm_compute in Hall.
  - intros docs w3 w4 rc w5 -> -> ->. done.
Qed.

(** A run of C8: the module's three allocations succeed, the capability
    object's fails. *)
Lemma capi_failure_does_not_abort_init_witness :
  let script := [true; true; true; false] in
  (∃ rest, ev_call <$> (init_run script).1
           = init_module_call :: capi_object_call
               :: PyString_FromString docstring :: rest)
  ∧ (∀ e m' v, e ∈ (init_run script).1 →
       ev_call e ≠ PyModule_AddObject m' "translate_file_reference_CAPI" v)
  ∧ init_run script
    = (Event init_module_call (Some (Some 1%positive))
         :: Event capi_object_call (Some NULL)
         :: docstring_events (Some 1%positive) (Some 4%positive) 0,
       Some ({| module := Some 1%positive |}, world_after_init script)).
Proof.
  intros script.
  pose (w1 := state_after init_module_call (world0 script)).
  pose (w2 := state_after capi_object_call w1).
  pose (w3 := state_after (PyString_FromString docstring) w2).
  pose (w4 := state_after (Py_INCREF (Some 4%positive)) w3).
  destruct (capi_failure_does_not_abort_init (py_api resolver_echo)
              globals_init (world0 script) 1%positive w1 w2)
    as (Hnext & Hnever & Hall).
  - vm_compute. reflexivity.
  - vm_compute. reflexivity.
  - split_and!; [exact Hnext|exact Hnever|].
    apply (Hall (Some 4%positive) w3 w4 0 (world_after_init script));
      vm_compute; reflexivity.
Defined.

(** ** Further properties, in any environment *)

Section MoreRunFacts.
Context {W : Type} (api : ∀ c : call, W → option (answer c * W)).

(** Every run of the handler. *)
Lemma run_handler_cases g self args w :
  run api (translate_file_reference_translate_url g self args) w
  = match api (PyArg_ParseTuple args "s") w with
    | None => ([Event (PyArg_ParseTuple args "s") None], None)
    | Some ((results, url), w1) =>
        if Z.eqb results 0
        then ([Event (PyArg_ParseTuple args "s") (Some (results, url))],
              Some (NULL, w1))
        else
          match api (translate_url (module g) url) w1 with
          | None => ([Event (PyArg_ParseTuple args "s") (Some (results, url));
                      Event (translate_url (module g) url) None], None)
          | Some (t, w2) =>
              ([Event (PyArg_ParseTuple args "s") (Some (results, url));
                Event (translate_url (module g) url) (Some t)], Some (t, w2))
          end
    end.
Proof.
  cbn. destruct (api (PyArg_ParseTuple args "s") w) as [[[results url] w1]|];
    [|done].
  destruct (Z.eqb results 0); [done|]. cbn.
  by destruct (api (translate_url (module g) url) w1) as [[t w2]|].
Qed.

(** Every run of [inittranslate_file_reference]. *)
Lemma run_init_cases g w :
  run api (inittranslate_file_reference g) w
  = match api init_module_call w with
    | None => ([Event init_module_call None], None)
    | Some (None, w1) =>
        ([Event init_module_call (Some NULL)], Some ({| module := NULL |}, w1))
    | Some (Some m, w1) =>
        let tail := run api (docstring_part (Some m) {| module := Some m |}) in
        match api capi_object_call w1 with
        | None => ([Event init_module_call (Some (Some m));
                    Event capi_object_call None], None)
        | Some (None, w2) =>
            (Event init_module_call (Some (Some m))
               :: Event capi_object_call (Some NULL) :: (tail w2).1, (tail w2).2)
        | Some (Some c, w2) =>
            let add := PyModule_AddObject (Some m)
                         "translate_file_reference_CAPI" (Some c) in
            match api add w2 with
            | None => ([Event init_module_call (Some (Some m));
                        Event capi_object_call (Some (Some c));
                        Event add None], None)
            | Some (rc, w3) =>
                (Event init_module_call (Some (Some m))
                   :: Event capi_object_call (Some (Some c))
                   :: Event add (Some rc) :: (tail w3).1, (tail w3).2)
            end
        end
    end.
Proof.
  destruct (api init_module_call w) as [[[m|] w1]|] eqn:Hinit.
  - by apply run_init_created.
  - by apply run_init_not_created.
  - by apply run_init_faults.
Qed.
End MoreRunFacts.

(** Go through every run of [inittranslate_file_reference]: the answers of
    the calls, one after the other. *)
Ltac init_runs api :=
  rewrite (run_init_cases api); cbv zeta;
  repeat first
    [ rewrite (run_docstring_part api)
    | match goal with
      | |- context [match api ?c ?w with Some _ => _ | None => _ end] =>
          let r := fresh "r" in
          let w' := fresh "w" in
          destruct (api c w) as [[r w']|]; try (destruct r as [?|])
      end ];
  cbn [fst snd docstring_events].

(** An event is one of an explicit trace. *)
Ltac one_of_trace Hin :=
  cbn [fst snd] in Hin; unfold docstring_events in Hin;
  repeat match type of Hin with
    | _ ∈ [] => by apply elem_of_nil in Hin
    | _ ∈ _ :: _ => apply elem_of_cons in Hin as [->|Hin]
    end.

(** X2. Whatever the environment answers, every [PyModule_AddObject] call of
    the initialisation is made on the module that [Py_InitModule3] has just
    returned, which is not null; it stores either the capability object, and
    then a non-null one, or [__doc__]. *)
Theorem init_adds_only_to_created_module
    {W} (api : ∀ c : call, W → option (answer c * W)) g w e m name v :
  e ∈ (run api (inittranslate_file_reference g) w).1 →
  ev_call e = PyModule_AddObject m name v →
  m ≠ NULL
  ∧ head (run api (inittranslate_file_reference g) w).1
    = Some (Event init_module_call (Some m))
  ∧ (name = "translate_file_reference_CAPI" ∧ v ≠ NULL ∨ name = "__doc__").
Proof.
  init_runs api; intros Hin Hcall; one_of_trace Hin;
    cbn in Hcall; unfold init_module_call, capi_object_call in Hcall;
    try discriminate Hcall;
    injection Hcall as <- <- <-; split_and!; by eauto.
Qed.

(** A run of X2: the capability object of a plain initialisation. *)
Lemma init_adds_only_to_created_module_witness :
  Some 1%positive ≠ NULL
  ∧ head (init_run []).1 = Some (Event init_module_call (Some (Some 1%positive)))
  ∧ ("translate_file_reference_CAPI" = "translate_file_reference_CAPI"
       ∧ Some 4%positive ≠ NULL
     ∨ "translate_file_reference_CAPI" = "__doc__").
Proof.
  apply (init_adds_only_to_created_module (py_api resolver_echo) globals_init
           (world0 [])
           (Event (PyModule_AddObject (Some 1%positive)
                     "translate_file_reference_CAPI" (Some 4%positive))
              (Some 0))).
  - apply list_elem_of_lookup. exists 2%nat. vm_compute. reflexivity.
  - reflexivity.
Defined.

(** X3. The resolver is reached only through a successful parse: whenever the
    handler calls [translate_url], in any environment, [PyArg_ParseTuple] has
    returned nonzero before, the url passed on is the one the parser stored,
    the module passed on is the module global, and these two calls are the
    whole trace. *)
Theorem resolver_reached_only_after_parse
    {W} (api : ∀ c : call, W → option (answer c * W)) g self args w m url :
  (m, url) ∈ resolver_calls
    (run api (translate_file_reference_translate_url g self args) w).1 →
  m = module g
  ∧ ∃ results w1,
      api (PyArg_ParseTuple args "s") w = Some ((results, url), w1)
      ∧ results ≠ 0
      ∧ ev_call <$> (run api (translate_file_reference_translate_url g self args) w).1
        = [PyArg_ParseTuple args "s"; translate_url (module g) url].
Proof.
  rewrite run_handler_cases.
  destruct (api (PyArg_ParseTuple args "s") w) as [[[results url'] w1]|];
    [|by intros Hin%elem_of_nil].
  destruct (Z.eqb_spec results 0) as [|Hres]; [by intros Hin%elem_of_nil|].
  destruct (api (translate_url (module g) url') w1) as [[t w2]|];
    intros Hin%list_elem_of_singleton; injection Hin as -> ->;
    (split; [done|]); by exists results, w1.
Qed.

(** A run of X3. *)
Lemma resolver_reached_only_after_parse_witness :
  Some 3%positive = module example_globals
  ∧ ∃ results w1,
      py_api resolver_echo (PyArg_ParseTuple (Some 2%positive) "s") world_one_string
      = Some ((results, example_url), w1)
      ∧ results ≠ 0
      ∧ ev_call <$> (run (py_api resolver_echo)
                       (translate_file_reference_translate_url example_globals
                          NULL (Some 2%positive)) world_one_string).1
        = [PyArg_ParseTuple (Some 2%positive) "s";
           translate_url (module example_globals) example_url].
Proof.
  apply (resolver_reached_only_after_parse (py_api resolver_echo)
           example_globals NULL (Some 2%positive) world_one_string).
  apply list_elem_of_lookup. exists 0%nat. vm_compute. reflexivity.
Defined.

(** X4. Initialisation never calls the resolver, and makes at most six calls,
    whatever the environment answers. *)
Theorem init_never_resolves
    {W} (api : ∀ c : call, W → option (answer c * W)) g w :
  resolver_calls (run api (inittranslate_file_reference g) w).1 = []
  ∧ (length (run api (inittranslate_file_reference g) w).1 ≤ 6)%nat.
Proof. init_runs api; split; cbn; (done || lia). Qed.

(** X1. The handler works on what the initialisation left in the module
    global: after [inittranslate_file_reference] has returned, every resolver
    call of the handler passes the pointer that [Py_InitModule3] returned to
    the initialisation.  The handler does not test it: after a failed module
    creation an accepted argument reaches the resolver with a null module. *)
Theorem handler_passes_module_of_init
    {W} (api : ∀ c : call, W → option (answer c * W))
    g w tr g' w' self args w2 :
  run api (inittranslate_file_reference g) w = (tr, Some (g', w')) →
  let calls := resolver_calls
    (run api (translate_file_reference_translate_url g' self args) w2).1 in
  (∀ m url, (m, url) ∈ calls → ∃ w1, api init_module_call w = Some (m, w1))
  ∧ (∀ w1 results url w3,
       api init_module_call w = Some (NULL, w1) →
       api (PyArg_ParseTuple args "s") w2 = Some ((results, url), w3) →
       results ≠ 0 →
       calls = [(NULL, url)]).
Proof.
  intros Hrun.
  destruct (init_module_global api g w tr g' w' Hrun) as (w1 & Hinit & _ & _).
  cbv zeta. rewrite run_handler_cases. split.
  - intros m url.
    destruct (api (PyArg_ParseTuple args "s") w2) as [[[results url'] w3]|];
      [|by intros Hin%elem_of_nil].
    destruct (Z.eqb_spec results 0) as [|Hres]; [by intros Hin%elem_of_nil|].
    destruct (api (translate_url (module g') url') w3) as [[t w4]|];
      intros Hin%list_elem_of_singleton; injection Hin as -> ->; by exists w1.
  - intros w1' results url w3 Hnull Hparse Hres. rewrite Hparse.
    destruct (Z.eqb_spec results 0) as [|_]; [done|].
    assert (module g' = NULL) as -> by congruence.
    by destruct (api (translate_url NULL url) w3) as [[t w4]|].
Qed.

(** A run of X1: a plain initialisation, then a call with one string; and a
    failed initialisation, then the same call. *)
Lemma handler_passes_module_of_init_witness :
  (∃ w1, py_api resolver_echo init_module_call (world0 [])
         = Some (Some 1%positive, w1))
  ∧ resolver_calls
      (run (py_api resolver_echo)
         (translate_file_reference_translate_url {| module := NULL |} NULL
            (Some 2%positive)) world_one_string).1
    = [(NULL, example_url)].
Proof.
  split.
  - destruct (handler_passes_module_of_init (py_api resolver_echo) globals_init
                (world0 []) (init_run []).1 {| module := Some 1%positive |}
                (world_after_init []) NULL (Some 2%positive) world_one_string)
      as [Hfrom _].
    + vm_compute. reflexivity.
    + apply (Hfrom (Some 1%positive) example_url).
      apply list_elem_of_lookup. exists 0%nat. vm_compute. reflexivity.
  - destruct (handler_passes_module_of_init (py_api resolver_echo) globals_init
                (world0 [false]) (init_run [false]).1 {| module := NULL |}
                (world_after_init [false]) NULL (Some 2%positive)
                world_one_string)
      as [_ Hnull].
    + vm_compute. reflexivity.
    + apply (Hnull (world_after_init [false]) 1 example_url world_one_string).
      * vm_compute. reflexivity.
      * vm_compute. reflexivity.
      * lia.
Defined.

(** X5. The initialisation discards what [PyModule_AddObject] returns: with
    the module and the capability object created, whatever the two
    [PyModule_AddObject] calls return (also [-1]), the same six calls are made
    and the function returns with the module global set. *)
Theorem init_ignores_add_object_results
    {W} (api : ∀ c : call, W → option (answer c * W))
    g w m w1 c w2 rc w3 docs w4 w5 rc' w6 :
  api init_module_call w = Some (Some m, w1) →
  api capi_object_call w1 = Some (Some c, w2) →
  api (PyModule_AddObject (Some m) "translate_file_reference_CAPI" (Some c)) w2
    = Some (rc, w3) →
  api (PyString_FromString docstring) w3 = Some (docs, w4) →
  api (Py_INCREF docs) w4 = Some (tt, w5) →
  api (PyModule_AddObject (Some m) "__doc__" docs) w5 = Some (rc', w6) →
  run api (inittranslate_file_reference g) w
  = (Event init_module_call (Some (Some m))
       :: Event capi_object_call (Some (Some c))
       :: Event (PyModule_AddObject (Some m) "translate_file_reference_CAPI"
                   (Some c)) (Some rc)
       :: docstring_events (Some m) docs rc',
     Some ({| module := Some m |}, w6)).
Proof.
  intros Hinit Hc Hadd Hdocs Hinc Hadd'.
  rewrite (run_init_cases api), Hinit. cbv zeta. rewrite Hc, Hadd.
  rewrite (run_docstring_part api), Hdocs, Hinc, Hadd'. done.
Qed.

(** A run of X5 in an environment whose [PyModule_AddObject] always fails. *)
Lemma init_ignores_add_object_results_witness :
  run refusing_api (inittranslate_file_reference globals_init) (world0 [])
  = (Event init_module_call (Some (Some 1%positive))
       :: Event capi_object_call (Some (Some 4%positive))
       :: Event (PyModule_AddObject (Some 1%positive)
                   "translate_file_reference_CAPI" (Some 4%positive)) (Some (-1))
       :: docstring_events (Some 1%positive) (Some 5%positive) (-1),
     Some ({| module := Some 1%positive |},
           state_after (Py_INCREF (Some 5%positive))
             (state_after (PyString_FromString docstring)
                (state_after capi_object_call
                   (state_after init_module_call (world0 [])))))).
Proof.
  pose (w1 := state_after init_module_call (world0 [])).
  pose (w2 := state_after capi_object_call w1).
  pose (w4 := state_after (PyString_FromString docstring) w2).
  pose (w5 := state_after (Py_INCREF (Some 5%positive)) w4).
  apply (init_ignores_add_object_results refusing_api globals_init (world0 [])
           1%positive w1 4%positive w2 (-1) w2 (Some 5%positive) w4 w5 (-1) w5);
    vm_compute; reflexivity.
Defined.

(** ** Further properties, on the reference interpreter *)

Lemma module_attr_val w a name :
  module_attr w (Some a) name
  = match val w a with
    | Some (PyModule_Type _ d) => x ← d !! name; val w x
    | _ => None
    end.
Proof.
  unfold module_attr, val. simpl. by destruct (heap w !! a) as [[rc v]|].
Qed.

Lemma module_set_val a name v w x :
  val (module_set a name v w) x
  = if decide (x = a)
    then match val w a with
         | Some (PyModule_Type n d) => Some (PyModule_Type n (<[name := v]> d))
         | other => other
         end
    else val w x.
Proof.
  unfold module_set, val.
  destruct (heap w !! a) as [[rc [| | | | | |n d|]]|] eqn:Ha; simpl;
    destruct (decide (x = a)) as [->|Hne]; try (by rewrite ?Ha);
    by rewrite ?lookup_insert_eq, ?lookup_insert_ne by done.
Qed.

(** The module as [Py_InitModule3] leaves it for the module's own method
    table: [translate_url] is bound to a built-in function object for the
    table's entry, and a module that was not registered before has no
    capability attribute. *)
Lemma Py_InitModule3_dict doc w a w1 :
  ref_Py_InitModule3 "translate_file_reference" translate_file_reference_methods
    doc w = Some (Some a, w1) →
  ∃ n d fa ml,
    val w1 a = Some (PyModule_Type n d)
    ∧ d !! "translate_url" = Some fa
    ∧ val w1 fa = Some (PyCFunction_Type ml NULL)
    ∧ translate_file_reference_methods !! 0%nat = Some ml
    ∧ (sys_modules w !! "translate_file_reference" = None →
       d !! "translate_file_reference_CAPI" = None).
Proof.
  unfold ref_Py_InitModule3. intros H.
  destruct (ref_PyImport_AddModule "translate_file_reference" w)
    as [[b|] w0] eqn:Hadd; [|done].
  assert (∃ n d0, val w0 b = Some (PyModule_Type n d0)
            ∧ (sys_modules w !! "translate_file_reference" = None → d0 = ∅))
    as (n & d0 & Hb & Hnew).
  { unfold ref_PyImport_AddModule in Hadd.
    destruct (sys_modules w !! "translate_file_reference") as [b'|] eqn:Hname.
    - unfold val.
      destruct (ob_value <$> heap w !! b') as [[| | | | | |n d|]|] eqn:Hb';
        simplify_eq/=. by exists n, d.
    - destruct (new_object (PyModule_Type "translate_file_reference" ∅) w)
        as [[b'|] w'] eqn:Hnew; simplify_eq/=.
      exists "translate_file_reference", ∅. split; [|done].
      change (val w' b = Some (PyModule_Type "translate_file_reference" ∅)).
      rewrite (new_object_val _ _ _ _ _ Hnew). by rewrite decide_True. }
  simpl in H.
  destruct (new_object (PyCFunction_Type _ NULL) w0) as [[fa|] wA] eqn:HnewA;
    [|done].
  destruct (new_object (PyString_Type doc) (module_set b "translate_url" fa wA))
    as [[va|] wB] eqn:HnewB; [|done].
  simplify_eq.
  pose proof (new_object_spec _ _ _ _ HnewA) as (_ & HfreshA & _).
  assert (fa ≠ a) as Hfa.
  { intros ->. unfold val in Hb. by rewrite HfreshA in Hb. }
  assert (val (module_set a "translate_url" fa wA) a
          = Some (PyModule_Type n (<["translate_url" := fa]> d0))) as Ha1.
  { rewrite module_set_val, decide_True by done.
    by rewrite (new_object_keeps _ _ _ _ _ _ HnewA Hb). }
  assert (val (module_set a "translate_url" fa wA) fa
          = Some (PyCFunction_Type
                    {| ml_name := Some "translate_url";
                       ml_meth := Some fn_translate_file_reference_translate_url;
                       ml_flags := METH_VARARGS;
                       ml_doc := Some "Translate a url" |} NULL)) as Hfa1.
  { rewrite module_set_val, decide_False by done.
    rewrite (new_object_val _ _ _ _ _ HnewA). by rewrite decide_True. }
  eexists n, _, fa, _. split_and!.
  - rewrite module_set_val, decide_True by done.
    by rewrite (new_object_keeps _ _ _ _ _ _ HnewB Ha1).
  - by rewrite lookup_insert_ne, lookup_insert_eq by done.
  - rewrite module_set_val, decide_False by done.
    by apply (new_object_keeps _ _ _ _ _ _ HnewB Hfa1).
  - done.
  - intros Hnone. rewrite (Hnew Hnone).
    by rewrite !lookup_insert_ne, lookup_empty by done.
Qed.

(** From the module as [Py_InitModule3] returned it to the module at the end
    of the initialisation: only the attributes [translate_file_reference_CAPI]
    and [__doc__] change, the first only when the capability object was
    created, and the other objects keep their value. *)
Lemma init_after_module resolver g w tr g' w' a :
  run (py_api resolver) (inittranslate_file_reference g) w = (tr, Some (g', w')) →
  module g' = Some a →
  ∃ w1 n d1 d',
    ref_Py_InitModule3 "translate_file_reference"
      translate_file_reference_methods "Translate file paths" w
      = Some (Some a, w1)
    ∧ val w1 a = Some (PyModule_Type n d1)
    ∧ val w' a = Some (PyModule_Type n d')
    ∧ (∀ name, name ≠ "translate_file_reference_CAPI" → name ≠ "__doc__" →
         d' !! name = d1 !! name)
    ∧ (Event capi_object_call (Some NULL) ∈ tr →
         d' !! "translate_file_reference_CAPI"
         = d1 !! "translate_file_reference_CAPI")
    ∧ (∀ x v, x ≠ a → val w1 x = Some v → val w' x = Some v).
Proof.
  intros Hrun Hg'.
  destruct (py_api resolver init_module_call w) as [[[m|] w1]|] eqn:Hinit.
  2: { rewrite (run_init_not_created _ g w w1 Hinit) in Hrun. by simplify_eq. }
  2: { by rewrite (run_init_faults _ g w Hinit) in Hrun. }
  rewrite (run_init_created _ g w m w1 Hinit) in Hrun. cbv zeta in Hrun.
  pose proof Hinit as Hinit'.
  apply Py_InitModule3_spec in Hinit as [_ (n & d1 & Hm)].
  assert (∃ pre ws ds,
    tr = pre ++ (run (py_api resolver)
                   (docstring_part (Some m) {| module := Some m |}) ws).1
    ∧ Some (g', w') = (run (py_api resolver)
                   (docstring_part (Some m) {| module := Some m |}) ws).2
    ∧ val ws m = Some (PyModule_Type n ds)
    ∧ (∀ name, name ≠ "translate_file_reference_CAPI" → ds !! name = d1 !! name)
    ∧ (Event capi_object_call (Some NULL) ∈ pre → ds = d1)
    ∧ (∀ x v, x ≠ m → val w1 x = Some v → val ws x = Some v))
    as (pre & ws & ds & -> & Hout & Hms & Hds & Hnull & Hkeep).
  { cbn [py_api capi_object_call] in Hrun.
    destruct (new_object (PyCObject_Type (Some Py_translate_file_reference_api)
        "translate_file_reference.translate_file_reference_CAPI") w1)
      as [[c|] w2] eqn:Hnew.
    - pose proof (new_object_keeps _ _ _ _ _ _ Hnew Hm) as Hm2.
      destruct (ref_PyModule_AddObject (Some m) "translate_file_reference_CAPI"
                  (Some c) w2) as [[rc w3]|] eqn:Hadd; [|done].
      destruct (PyModule_AddObject_spec _ _ _ _ _ _ _ _ Hm2 Hadd)
        as (-> & _ & Hval3).
      simplify_eq.
      eexists [_; _; _], w3, _. split_and!; [done|done| | | |].
      + by rewrite Hval3, decide_True.
      + intros name Hname. by rewrite lookup_insert_ne.
      + intros Hin. find_capi_event Hin. done.
      + intros x v Hx Hv. rewrite Hval3, decide_False by done.
        by eapply new_object_keeps.
    - pose proof (new_object_keeps _ _ _ _ _ _ Hnew Hm) as Hm2.
      simplify_eq.
      eexists [_; _], w2, d1. split_and!; [done..|].
      intros x v Hx Hv. by eapply new_object_keeps. }
  clear Hrun. revert Hout. rewrite run_docstring_part. cbn [py_api].
  destruct (new_object (PyString_Type docstring) ws) as [docs w4] eqn:Hnew.
  destruct (ref_Py_INCREF docs w4) as [[[] w5]|] eqn:Hinc; [|done].
  destruct (Py_INCREF_spec _ _ _ _ Hinc) as (_ & (da & -> & _) & Hval5).
  pose proof (new_object_keeps _ _ _ _ _ _ Hnew Hms) as Hm4.
  assert (val w5 m = Some (PyModule_Type n ds)) as Hm5 by by rewrite Hval5.
  destruct (ref_PyModule_AddObject (Some m) "__doc__" (Some da) w5)
    as [[rc w6]|] eqn:Hadd; [|done].
  destruct (PyModule_AddObject_spec _ _ _ _ _ _ _ _ Hm5 Hadd)
    as (-> & _ & Hval6).
  cbn [fst snd]. intros [= -> ->]. cbn [module] in Hg'. simplify_eq.
  exists w1, n, d1, (<["__doc__" := da]> ds). split_and!.
  - done.
  - done.
  - by rewrite Hval6, decide_True.
  - intros name Hcapi Hdoc. rewrite lookup_insert_ne by done. by apply Hds.
  - intros Hin. apply elem_of_app in Hin as [Hin|Hin].
    + rewrite (Hnull Hin). by rewrite lookup_insert_ne.
    + unfold docstring_events in Hin. find_capi_event Hin.
  - intros x v Hx Hv. rewrite Hval6, decide_False, Hval5 by done.
    eapply new_object_keeps; [done|]. by apply Hkeep.
Qed.

(** X8. The handler on an argument tuple, on the reference interpreter.  The
    tuple is accepted when it holds exactly one argument, a string object or
    a unicode object that the default encoding encodes and whose encoded copy
    can be allocated, without NUL bytes.  The characters of an accepted
    argument go to the resolver, once and unchanged, and the handler's outcome
    is the resolver's.  Every other tuple is rejected: the handler returns
    null with an error pending and the resolver is not called. *)
Theorem handler_on_argument_tuple resolver g self args w items :
  tuple_items w args = Some items →
  let r := run (py_api resolver)
             (translate_file_reference_translate_url g self args) w in
  if format_s_accepts w items then
    ∃ s w1,
      accepted_string items = Some s
      ∧ ref_PyArg_ParseTuple args "s" w = Some ((1, s), w1)
      ∧ ev_call <$> r.1 = [PyArg_ParseTuple args "s"; translate_url (module g) s]
      ∧ r.2 = resolver (module g) s w1
  else
    ∃ url w1,
      r = ([Event (PyArg_ParseTuple args "s") (Some (0, url))], Some (NULL, w1))
      ∧ is_Some (err w1).
Proof.
  intros Hitems. cbv zeta.
  destruct (format_s_accepts w items) eqn:Hacc.
  - by apply handler_forwards_accepted.
  - by apply (handler_rejects_arguments resolver g self args w items).
Qed.

(** A run of X8 on a unicode argument. *)
Lemma handler_on_argument_tuple_witness :
  ∃ s w1,
    accepted_string [PyUnicode_Type [102; 105; 108; 101; 58; 47; 120]%N] = Some s
    ∧ ref_PyArg_ParseTuple (Some 2%positive) "s" world_unicode = Some ((1, s), w1)
    ∧ ev_call <$> (run (py_api resolver_echo)
                     (translate_file_reference_translate_url example_globals NULL
                        (Some 2%positive)) world_unicode).1
      = [PyArg_ParseTuple (Some 2%positive) "s";
         translate_url (module example_globals) s]
    ∧ (run (py_api resolver_echo)
         (translate_file_reference_translate_url example_globals NULL
            (Some 2%positive)) world_unicode).2
      = resolver_echo (module example_globals) s w1.
Proof.
  apply (handler_on_argument_tuple resolver_echo example_globals NULL
           (Some 2%positive) world_unicode
           [PyUnicode_Type [102; 105; 108; 101; 58; 47; 120]%N]).
  vm_compute. reflexivity.
Defined.

(** X6. From the host to the resolver.  Once the initialisation has returned
    with the module created, the module's attribute [translate_url] is the
    built-in function of the method table; the host calling it with a tuple
    of one string without NUL bytes enters the handler with a null [self],
    the resolver is called once with the module and that string, and the
    call's outcome is the resolver's. *)
Theorem host_call_reaches_resolver resolver g w tr g' w' w2 args s :
  run (py_api resolver) (inittranslate_file_reference g) w = (tr, Some (g', w')) →
  module g' ≠ NULL →
  module_attr w2 (module g') "translate_url"
    = module_attr w' (module g') "translate_url" →
  tuple_items w2 args = Some [PyString_Type s] →
  has_nul s = false →
  let r := call_module_function resolver g' (module g') "translate_url" args w2 in
  r = run (py_api resolver)
        (translate_file_reference_translate_url g' NULL args) w2
  ∧ ev_call <$> r.1 = [PyArg_ParseTuple args "s"; translate_url (module g') s]
  ∧ r.2 = resolver (module g') s w2.
Proof.
  intros Hrun Hmod Hsame Hitems Hnul.
  destruct (module g') as [a|] eqn:Hg'; [|done].
  destruct (init_after_module _ _ _ _ _ _ _ Hrun Hg')
    as (w1 & n & d1 & d' & Hinit & Ha1 & Ha' & Hother & _ & Hkeep).
  destruct (Py_InitModule3_dict _ _ _ _ Hinit)
    as (n' & d & fa & ml & Ha & Hd & Hfa & Hml & _).
  rewrite Ha1 in Ha. injection Ha as <- <-.
  assert (fa ≠ a) as Hne by (intros ->; congruence).
  assert (module_attr w' (Some a) "translate_url"
          = Some (PyCFunction_Type ml NULL)) as Hattr.
  { rewrite module_attr_val, Ha', Hother, Hd by done. simpl. by apply Hkeep. }
  injection Hml as <-.
  cbv zeta. unfold call_module_function. rewrite Hsame, Hattr. cbn.
  rewrite (ParseTuple_one_string w2 args s Hitems Hnul). cbn.
  rewrite decide_True, Hg' by done.
  by destruct (resolver (Some a) s w2) as [[t w3]|].
Qed.

(** A run of X6: a plain initialisation, then the call
    [translate_url(example_url)]. *)
Lemma host_call_reaches_resolver_witness :
  let r := call_module_function resolver_echo {| module := Some 1%positive |}
             (Some 1%positive) "translate_url" (Some 7%positive)
             (world_with_call example_url) in
  r = run (py_api resolver_echo)
        (translate_file_reference_translate_url {| module := Some 1%positive |}
           NULL (Some 7%positive)) (world_with_call example_url)
  ∧ ev_call <$> r.1 = [PyArg_ParseTuple (Some 7%positive) "s";
                       translate_url (Some 1%positive) example_url]
  ∧ r.2 = resolver_echo (Some 1%positive) example_url
            (world_with_call example_url).
Proof.
  apply (host_call_reaches_resolver resolver_echo globals_init (world0 [])
           (init_run []).1 {| module := Some 1%positive |}
           (world_after_init [])).
  - vm_compute. reflexivity.
  - discriminate.
  - vm_compute. reflexivity.
  - vm_compute. reflexivity.
  - vm_compute. reflexivity.
Defined.

Lemma new_object_err v w r w' :
  new_object v w = (r, w') →
  err w' = match r with None => Some PyExc_MemoryError | Some _ => err w end.
Proof.
  unfold new_object. intros H.
  destruct (alloc_script w) as [|[] rest]; by simplify_eq/=.
Qed.

Lemma Py_INCREF_err op w u w' :
  ref_Py_INCREF op w = Some (u, w') → err w' = err w.
Proof.
  unfold ref_Py_INCREF. intros H.
  destruct op as [a|]; [|done]. simpl in H.
  destruct (heap w !! a) as [o|]; by simplify_eq/=.
Qed.

Lemma PyModule_AddObject_err a name v w rc w' n d :
  val w a = Some (PyModule_Type n d) →
  ref_PyModule_AddObject (Some a) name (Some v) w = Some (rc, w') →
  err w' = err w.
Proof.
  unfold val, ref_PyModule_AddObject. intros Ha H. simpl in H.
  destruct (heap w !! a) as [[rcnt ov]|]; [|done]. by simplify_eq/=.
Qed.

(** The initialisation never clears the error indicator: the [MemoryError] of
    a failed creation of the capability object is pending when it returns. *)
Lemma init_error_after_capi_failure resolver g w tr g' w' :
  run (py_api resolver) (inittranslate_file_reference g) w = (tr, Some (g', w')) →
  Event capi_object_call (Some NULL) ∈ tr →
  err w' = Some PyExc_MemoryError.
Proof.
  intros Hrun Hin.
  destruct (py_api resolver init_module_call w) as [[[m|] w1]|] eqn:Hinit.
  2: { rewrite (run_init_not_created _ g w w1 Hinit) in Hrun. simplify_eq.
       find_capi_event Hin. }
  2: { by rewrite (run_init_faults _ g w Hinit) in Hrun. }
  rewrite (run_init_created _ g w m w1 Hinit) in Hrun. cbv zeta in Hrun.
  apply Py_InitModule3_spec in Hinit as [_ (n & d1 & Hm)].
  cbn [py_api capi_object_call] in Hrun.
  destruct (new_object (PyCObject_Type (Some Py_translate_file_reference_api)
      "translate_file_reference.translate_file_reference_CAPI") w1)
    as [[c|] w2] eqn:Hnew.
  { exfalso.
    destruct (ref_PyModule_AddObject (Some m) "translate_file_reference_CAPI"
                (Some c) w2) as [[rc w3]|]; [|done].
    rewrite run_docstring_part in Hrun. cbn [py_api] in Hrun.
    destruct (new_object (PyString_Type docstring) w3) as [docs w4].
    destruct (ref_Py_INCREF docs w4) as [[[] w5]|]; [|done].
    destruct (ref_PyModule_AddObject (Some m) "__doc__" docs w5)
      as [[rc' w6]|]; [|done].
    cbn [fst snd] in Hrun. simplify_eq.
    unfold docstring_events in Hin. find_capi_event Hin. done. }
  pose proof (new_object_err _ _ _ _ Hnew) as Herr2. simpl in Herr2.
  pose proof (new_object_keeps _ _ _ _ _ _ Hnew Hm) as Hm2.
  rewrite run_docstring_part in Hrun. cbn [py_api] in Hrun.
  destruct (new_object (PyString_Type docstring) w2) as [docs w4] eqn:Hnew4.
  destruct (ref_Py_INCREF docs w4) as [[[] w5]|] eqn:Hinc; [|done].
  destruct (Py_INCREF_spec _ _ _ _ Hinc) as (_ & (da & -> & _) & Hval5).
  pose proof (new_object_err _ _ _ _ Hnew4) as Herr4. simpl in Herr4.
  pose proof (Py_INCREF_err _ _ _ _ Hinc) as Herr5.
  pose proof (new_object_keeps _ _ _ _ _ _ Hnew4 Hm2) as Hm4.
  assert (val w5 m = Some (PyModule_Type n d1)) as Hm5 by by rewrite Hval5.
  destruct (ref_PyModule_AddObject (Some m) "__doc__" (Some da) w5)
    as [[rc w6]|] eqn:Hadd; [|done].
  pose proof (PyModule_AddObject_err _ _ _ _ _ _ _ _ Hm5 Hadd) as Herr6.
  cbn [fst snd] in Hrun. simplify_eq. congruence.
Qed.

(** X7. A failed creation of the capability object, seen after the
    initialisation.  When the module was not registered before and the
    initialisation has returned with a null capability object, the module
    global is set, the [MemoryError] of the failed creation is still pending
    (the initialisation never clears the error indicator), and the header's
    import macro gets a null pointer, with [AttributeError] set. *)
Theorem import_fails_without_capability resolver g w tr g' w' :
  sys_modules w !! "translate_file_reference" = None →
  run (py_api resolver) (inittranslate_file_reference g) w = (tr, Some (g', w')) →
  Event capi_object_call (Some NULL) ∈ tr →
  module g' ≠ NULL
  ∧ err w' = Some PyExc_MemoryError
  ∧ run (py_api resolver) Py_TRANSLATE_FILE_REFERENCE_IMPORT w'
    = ([Event (PyCObject_Import "translate_file_reference"
                 "translate_file_reference_CAPI") (Some None)],
       Some (None, set_err PyExc_AttributeError w')).
Proof.
  intros Hfresh Hrun Hin.
  destruct (module g') as [a|] eqn:Hg'.
  2: { destruct (init_module_global _ _ _ _ _ _ Hrun) as (_ & _ & _ & Htr).
       rewrite (Htr Hg') in Hin. find_capi_event Hin. }
  split; [done|].
  split; [by eapply init_error_after_capi_failure|].
  destruct (init_final_state _ _ _ _ _ _ _ Hrun Hg') as (Hname & _).
  destruct (init_after_module _ _ _ _ _ _ _ Hrun Hg')
    as (w1 & n & d1 & d' & Hinit & Ha1 & Ha' & _ & Hcapi & _).
  destruct (Py_InitModule3_dict _ _ _ _ Hinit)
    as (n' & d & fa & ml & Ha & _ & _ & _ & Hnone).
  rewrite Ha1 in Ha. injection Ha as <- <-.
  unfold Py_TRANSLATE_FILE_REFERENCE_IMPORT, perform. cbn [run py_api].
  unfold ref_PyCObject_Import. unfold val in Ha'.
  by rewrite Hname, Ha', (Hcapi Hin), (Hnone Hfresh).
Qed.

(** A run of X7: the capability object is the allocation that fails. *)
Lemma import_fails_without_capability_witness :
  Some 1%positive ≠ NULL
  ∧ err (world_after_init [true; true; true; false]) = Some PyExc_MemoryError
  ∧ run (py_api resolver_echo) Py_TRANSLATE_FILE_REFERENCE_IMPORT
      (world_after_init [true; true; true; false])
    = ([Event (PyCObject_Import "translate_file_reference"
                 "translate_file_reference_CAPI") (Some None)],
       Some (None, set_err PyExc_AttributeError
                     (world_after_init [true; true; true; false]))).
Proof.
  apply (import_fails_without_capability resolver_echo globals_init
           (world0 [true; true; true; false])
           (init_run [true; true; true; false]).1
           {| module := Some 1%positive |}).
  - reflexivity.
  - vm_compute. reflexivity.
  - apply list_elem_of_lookup. exists 1%nat. vm_compute. reflexivity.
Defined.

Lemma Py_InitModule3_returns name methods doc w :
  is_Some (ref_Py_InitModule3 name methods doc w).
Proof.
  unfold ref_Py_InitModule3.
  destruct (ref_PyImport_AddModule name w) as [[a|] w1]; [|done].
  destruct (add_methods a (named_methods methods) w1) as [[] w2]; [|done].
  by destruct (new_object (PyString_Type doc) w2) as [[va|] w3].
Qed.

(** An event with a given returned pointer is one of an explicit trace:
    drop the events of other calls and of other answers. *)
Ltac find_returned Hin :=
  repeat match type of Hin with
    | _ ∈ [] => by apply elem_of_nil in Hin
    | _ ∈ _ :: _ =>
        let Heq := fresh "Heq" in
        apply elem_of_cons in Hin as [Heq|Hin];
        [first [ by apply (f_equal ev_call) in Heq
               | by apply (f_equal returned_object) in Heq ]|]
    end.

(** X9. On the reference interpreter the initialisation fails to return in
    one case only: the docstring object could not be created.  The null
    pointer then goes to [Py_INCREF], which is the last call made; nothing is
    added as [__doc__]. *)
Theorem init_faults_iff_no_docstring_object resolver g w :
  let r := run (py_api resolver) (inittranslate_file_reference g) w in
  (r.2 = None ↔ Event (PyString_FromString docstring) (Some NULL) ∈ r.1)
  ∧ (r.2 = None → last r.1 = Some (Event (Py_INCREF NULL) None)).
Proof.
  cbv zeta. rewrite (run_init_cases (py_api resolver)).
  destruct (Py_InitModule3_returns "translate_file_reference"
              translate_file_reference_methods "Translate file paths" w)
    as [[m w1] Hinit].
  change (py_api resolver init_module_call w) with
    (ref_Py_InitModule3 "translate_file_reference"
       translate_file_reference_methods "Translate file paths" w).
  rewrite Hinit. destruct m as [m|].
  2: { cbn. split; [split; [done|]|done]. intros Hin. find_returned Hin. }
  apply Py_InitModule3_spec in Hinit as [_ (n & d & Hm)].
  cbv zeta. cbn [py_api capi_object_call].
  (* the state the docstring part starts from *)
  assert (∀ ws pre,
    is_module ws m →
    (∀ e, e ∈ pre → e ≠ Event (PyString_FromString docstring) (Some NULL)) →
    pre ≠ [] →
    let t := run (py_api resolver)
               (docstring_part (Some m) {| module := Some m |}) ws in
    (t.2 = None ↔ Event (PyString_FromString docstring) (Some NULL) ∈ pre ++ t.1)
    ∧ (t.2 = None → last (pre ++ t.1) = Some (Event (Py_INCREF NULL) None)))
    as Htail.
  { intros ws pre (n' & d' & Hms) Hpre Hne. cbv zeta.
    rewrite run_docstring_part. cbn [py_api].
    destruct (new_object (PyString_Type docstring) ws) as [[da|] w4] eqn:Hnew.
    - pose proof (new_object_keeps _ _ _ _ _ _ Hnew Hms) as Hm4.
      destruct (ref_Py_INCREF (Some da) w4) as [[[] w5]|] eqn:Hinc.
      2: { exfalso. unfold ref_Py_INCREF in Hinc. simpl in Hinc.
           pose proof (new_object_val _ _ _ _ da Hnew) as Hda.
           rewrite decide_True in Hda by done. unfold val in Hda.
           by destruct (heap w4 !! da). }
      destruct (Py_INCREF_spec _ _ _ _ Hinc) as (_ & _ & Hval5).
      destruct (PyModule_AddObject_returns m "__doc__" (Some da) w5 n' d')
        as [[rc w6] ->]; [by rewrite Hval5|].
      cbn [fst snd]. split; [split; [done|]|done].
      intros Hin. apply elem_of_app in Hin as [Hin|Hin].
      + by destruct (Hpre _ Hin).
      + unfold docstring_events in Hin. find_returned Hin.
    - cbn [ref_Py_INCREF mbind option_bind fst snd].
      split; [split; [intros _|done]|intros _].
      + apply elem_of_app. right. apply elem_of_cons. by left.
      + rewrite last_app. done. }
  destruct (new_object (PyCObject_Type (Some Py_translate_file_reference_api)
      "translate_file_reference.translate_file_reference_CAPI") w1)
    as [[c|] w2] eqn:Hnew.
  - pose proof (new_object_keeps _ _ _ _ _ _ Hnew Hm) as Hm2.
    destruct (ref_PyModule_AddObject (Some m) "translate_file_reference_CAPI"
                (Some c) w2) as [[rc w3]|] eqn:Hadd.
    2: { by destruct (PyModule_AddObject_returns m
           "translate_file_reference_CAPI" (Some c) w2 n d Hm2) as [? ?];
           simplify_eq. }
    destruct (PyModule_AddObject_spec _ _ _ _ _ _ _ _ Hm2 Hadd) as (_ & _ & Hval3).
    cbn [fst snd].
    apply (Htail w3 [_; _; _]); [|intros e Hin ->; find_returned Hin|done].
    eexists _, _. by rewrite Hval3, decide_True.
  - cbn [fst snd].
    apply (Htail w2 [_; _]); [|intros e Hin ->; find_returned Hin|done].
    eexists _, _. by eapply new_object_keeps.
Qed.

(** A run of X9: the fifth allocation, the docstring object, fails. *)
Lemma init_faults_iff_no_docstring_object_witness :
  (init_run [true; true; true; true; false]).2 = None
  ∧ last (init_run [true; true; true; true; false]).1
    = Some (Event (Py_INCREF NULL) None).
Proof.
  destruct (init_faults_iff_no_docstring_object resolver_echo globals_init
              (world0 [true; true; true; true; false])) as [Hiff Hlast].
  assert ((init_run [true; true; true; true; false]).2 = None) as Hnone.
  { apply Hiff. apply list_elem_of_lookup. exists 3%nat.
    vm_compute. reflexivity. }
  split; [exact Hnone|exact (Hlast Hnone)].
Defined.

(** ** The handler and its argument: the claims *)

Lemma resolver_calls_of_calls (tr : list event) :
  resolver_calls tr
  = omap (λ c, match c with
               | translate_url m url => Some (m, url)
               | _ => None
               end) (ev_call <$> tr).
Proof.
  unfold resolver_calls. induction tr as [|e tr IH]; [done|].
  cbn. rewrite IH. done.
Qed.

(** C1, as the code has it.  In any environment the handler fails without
    calling the resolver exactly when [PyArg_ParseTuple(args, "s", &url)]
    returns 0, and a nonzero return makes it call the resolver.  On the
    reference interpreter, for an argument tuple, that is exactly when format
    [s] does not accept the tuple: a missing argument and an argument that is
    not a string are two such cases, and so are a second argument, a string
    with a NUL byte, and a unicode object that cannot be encoded or whose
    encoded copy cannot be allocated.  An accepted tuple reaches the resolver
    with the characters of its string. *)
Theorem translate_url_fails_iff_argument_not_accepted
    {W} (api : ∀ c : call, W → option (answer c * W)) g self args w
    resolver wr items :
  (let r := run api (translate_file_reference_translate_url g self args) w in
   (fails_without_resolving r
      ↔ ∃ url w1, api (PyArg_ParseTuple args "s") w = Some ((0, url), w1))
   ∧ (∀ results url w1,
        api (PyArg_ParseTuple args "s") w = Some ((results, url), w1) →
        results ≠ 0 → resolver_calls r.1 = [(module g, url)]))
  ∧ (tuple_items wr args = Some items →
     let r := run (py_api resolver)
                (translate_file_reference_translate_url g self args) wr in
     (fails_without_resolving r ↔ format_s_accepts wr items = false)
     ∧ (argument_missing_or_not_string items → fails_without_resolving r)
     ∧ (format_s_accepts wr items = true →
        ∃ s, accepted_string items = Some s
             ∧ resolver_calls r.1 = [(module g, s)])).
Proof.
  split; [exact (handler_fails_iff_parser_rejects api g self args w)|].
  intros Hitems. cbv zeta.
  assert (format_s_accepts wr items = false →
          fails_without_resolving
            (run (py_api resolver)
               (translate_file_reference_translate_url g self args) wr))
    as Hrejected.
  { intros Hrej.
    destruct (handler_rejects_arguments resolver g self args wr items Hitems Hrej)
      as (url & w1 & -> & _).
    split; [by eexists|done]. }
  assert (format_s_accepts wr items = true →
          ∃ s, accepted_string items = Some s
               ∧ resolver_calls
                   (run (py_api resolver)
                      (translate_file_reference_translate_url g self args) wr).1
                 = [(module g, s)]) as Haccepted.
  { intros Hacc.
    destruct (handler_forwards_accepted resolver g self args wr items Hitems Hacc)
      as (s & w1 & Hs & _ & Hcalls & _).
    exists s. split; [done|]. by rewrite resolver_calls_of_calls, Hcalls. }
  split_and!.
  - split; [|exact Hrejected].
    intros [_ Hnone].
    destruct (format_s_accepts wr items) eqn:Hacc; [|done].
    destruct (Haccepted eq_refl) as (s & _ & Hcalls). congruence.
  - intros Hclaim. apply Hrejected.
    destruct Hclaim as [->|(v & -> & Hv)]; [done|].
    by destruct v.
  - exact Haccepted.
Qed.

(** A run of C1: a string with a NUL byte is rejected, a unicode object is
    forwarded. *)
Lemma translate_url_fails_iff_argument_not_accepted_witness :
  fails_without_resolving
    (run (py_api resolver_echo)
       (translate_file_reference_translate_url example_globals NULL
          (Some 2%positive)) world_nul_string)
  ∧ ∃ s, accepted_string [PyUnicode_Type [102; 105; 108; 101; 58; 47; 120]%N]
         = Some s
         ∧ resolver_calls
             (run (py_api resolver_echo)
                (translate_file_reference_translate_url example_globals NULL
                   (Some 2%positive)) world_unicode).1
           = [(module example_globals, s)].
Proof.
  split.
  - destruct (translate_url_fails_iff_argument_not_accepted
                (py_api resolver_echo) example_globals NULL (Some 2%positive)
                world_nul_string resolver_echo world_nul_string
                [PyString_Type nul_url]) as [_ Href].
    destruct Href as ([_ Hfails] & _ & _).
    + vm_compute. reflexivity.
    + apply Hfails. vm_compute. reflexivity.
  - destruct (translate_url_fails_iff_argument_not_accepted
                (py_api resolver_echo) example_globals NULL (Some 2%positive)
                world_unicode resolver_echo world_unicode
                [PyUnicode_Type [102; 105; 108; 101; 58; 47; 120]%N])
      as [_ Href].
    destruct Href as (_ & _ & Hforward).
    + vm_compute. reflexivity.
    + apply Hforward. vm_compute. reflexivity.
Defined.

(** C1 as the specification words it fails on a string with a NUL byte: the
    call has its one argument, the argument is a string, and the handler
    fails without calling the resolver. *)
Lemma translate_url_fails_on_string_with_nul :
  tuple_items world_nul_string (Some 2%positive) = Some [PyString_Type nul_url]
  ∧ ¬ (fails_without_resolving
         (run (py_api resolver_echo)
            (translate_file_reference_translate_url example_globals NULL
               (Some 2%positive)) world_nul_string)
       ↔ argument_missing_or_not_string [PyString_Type nul_url]).
Proof.
  split; [vm_compute; reflexivity|].
  intros [Hclaim _].
  destruct Hclaim as [Hnil|(v & Hv & Hstr)].
  - split; [by eexists|done].
  - discriminate Hnil.
  - injection Hv as <-. discriminate Hstr.
Qed.




(** ** The docstring that is not registered *)

(** C6 at the failing input.  The module and the capability object are
    created and the string for the docstring cannot be allocated: the null
    pointer goes to [Py_INCREF], the initialisation does not return, no
    [PyModule_AddObject] of [__doc__] is made, and the module's [__doc__] is
    still the text given to [Py_InitModule3]. *)
Theorem init_faults_before_docstring_is_registered :
  let script := [true; true; true; true; false] in
  let w1 := state_after init_module_call (world0 script) in
  let w2 := state_after capi_object_call w1 in
  let w3 := state_after (PyModule_AddObject (Some 1%positive)
                           "translate_file_reference_CAPI" (Some 4%positive)) w2 in
  let w4 := state_after (PyString_FromString docstring) w3 in
  head (init_run script).1
    = Some (Event init_module_call (Some (Some 1%positive)))
  ∧ (init_run script).2 = None
  ∧ ev_call <$> (init_run script).1
    = [init_module_call; capi_object_call;
       PyModule_AddObject (Some 1%positive) "translate_file_reference_CAPI"
         (Some 4%positive);
       PyString_FromString docstring; Py_INCREF NULL]
  ∧ py_api resolver_echo (PyString_FromString docstring) w3
    = Some (NULL, w4)
  ∧ py_api resolver_echo (Py_INCREF NULL) w4 = None
  ∧ module_attr w4 (Some 1%positive) "__doc__"
    = Some (PyString_Type "Translate file paths")
  ∧ PyString_Type "Translate file paths" ≠ PyString_Type docstring.
Proof. vm_compute. split_and!; done. Qed.
